(** * The unsigned CoRIM container ([corim/unsignedcorim.go])

    A shallow embedding of the [UnsignedCorim] builder operations, of the
    top-level validator [Valid] and of the decoding entry points, followed by
    the properties of the specification that concern them.

    Layout of the embedding:
    - Go values: [error] (nil is [None]), byte slices, [interface{}];
    - the packages the file imports ([swid], [comid], [eat]) as type classes
      of operations, one class per package;
    - pointer receivers: a small state monad [Go] over the memory cell that
      holds the container, in which dereferencing [nil] panics;
    - value receivers ([Valid], [GetID]) as pure functions. *)

From Stdlib Require Import String Ascii List Bool Arith ZArith Lia.
From Stdlib Require DecimalString.
Import ListNotations.
Local Open Scope string_scope.
Local Open Scope list_scope.

(** ** Go values *)

(** [[]byte]. *)
Definition bytes := list Init.Byte.byte.

(** The values of Go's [error] interface that the file builds or receives.
    [errors.New(text)] and [fmt.Errorf(text)] without verbs carry a text;
    [fmt.Errorf(format, err)] with a [%w] verb wraps its cause, and the
    validator's loops also print the position with [%d].  The nil error is
    [None : option error]. *)
Inductive error : Type :=
| errors_New (text : string)
| Errorf_w (format : string) (cause : error)
| Errorf_d_w (format : string) (pos : nat) (cause : error).

(** [fmt.Errorf] with a format that holds no verb. *)
Definition fmt_Errorf (format : string) : error := errors_New format.

(** Expansion of the verbs [%d] and [%w] of a format. *)
Fixpoint expand (format d w : string) : string :=
  match format with
  | EmptyString => EmptyString
  | String "%" (String "d" rest) => d ++ expand rest d w
  | String "%" (String "w" rest) => w ++ expand rest d w
  | String c rest => String c (expand rest d w)
  end.

(** [err.Error()]: the message of an error. *)
Fixpoint Error (e : error) : string :=
  match e with
  | errors_New text => text
  | Errorf_w format cause => expand format "" (Error cause)
  | Errorf_d_w format pos cause =>
      expand format (DecimalString.NilEmpty.string_of_uint (Nat.to_uint pos))
        (Error cause)
  end.

(** The dynamic values [SetID] is called with ([v interface{}]): a string, a
    byte array, or a value of any other type. *)
Inductive interface : Type :=
| of_string (s : string)
| of_bytes (b : bytes)
| of_other.

(** ** Imported packages *)

(** [swid.HashEntry]: the two fields [Locator.Valid] reads. *)
Record HashEntry : Type := mkHashEntry {
  HashAlgID : N;
  HashValue : bytes
}.

(** Package [github.com/veraison/swid]. *)
Class swid : Type := {
  (** [swid.TagID], a comparable struct; [TagID_zero] is [swid.TagID{}] *)
  TagID : Type;
  TagID_zero : TagID;
  TagID_eq_dec : forall a b : TagID, {a = b} + {a <> b};
  (** [swid.NewTagID(v) *TagID]: [None] is the nil pointer *)
  NewTagID : interface -> option TagID;
  (** [TagID.String()] *)
  TagID_String : TagID -> string;
  (** [swid.SoftwareIdentity] and its [ToCBOR() ([]byte, error)] *)
  SoftwareIdentity : Type;
  SoftwareIdentity_ToCBOR : SoftwareIdentity -> bytes + error;
  (** [swid.ValidHashEntry(algID, value) error] *)
  ValidHashEntry : N -> bytes -> option error
}.

(** Package [github.com/veraison/corim/comid]: [comid.Comid] with its
    [Valid() error] and [ToCBOR() ([]byte, error)]. *)
Class comid : Type := {
  Comid : Type;
  Comid_Valid : Comid -> option error;
  Comid_ToCBOR : Comid -> bytes + error
}.

(** [comid.TaggedURI] is a string type: the source converts with
    [comid.TaggedURI(href)]. *)
Definition TaggedURI := string.

(** Modelled from the spec: [comid.TaggedURI.Empty()] is declared in the
    [comid] package, outside this file; a Locator's href "must be
    non-empty", so [Empty] holds of the empty string only. *)
Definition TaggedURI_Empty (u : TaggedURI) : bool :=
  match u with
  | EmptyString => true
  | String _ _ => false
  end.

(** Package [github.com/veraison/eat]: [eat.Profile], the parser
    [eat.NewProfile] (a [Profile] pointer and an error) and the two tests. *)
Class eat : Type := {
  Profile : Type;
  NewProfile : string -> Profile + error;
  IsOID : Profile -> bool;
  IsURI : Profile -> bool
}.

(** ** Data model *)

(** [type Tag []byte] *)
Definition Tag := bytes.

(** [type Locator struct]; the thumbprint is a pointer, nil when absent. *)
Record Locator : Type := mkLocator {
  Href : TaggedURI;
  Thumbprint : option HashEntry
}.

(** [type UnsignedCorim struct]; the two optional lists are pointers to
    slices, nil when absent. *)
Record UnsignedCorim `{swid} `{eat} : Type := mkUnsignedCorim {
  ID : TagID;
  Tags : list Tag;
  DependentRims : option (list Locator);
  Profiles : option (list Profile)
}.

(** ** Pointer receivers *)

(** A [*UnsignedCorim]: nil, or the address of the container in memory. *)
Inductive ptr : Type :=
| nil_ptr
| container.

(** What running a method gives: a returned value and the memory after the
    call, or a run-time panic. *)
Inductive outcome (M A : Type) : Type :=
| Returns (a : A) (mem : M)
| Panics.
Arguments Returns {M A} a mem.
Arguments Panics {M A}.

(** Computations over the memory cell [M] of the container. *)
Definition Go (M A : Type) : Type := M -> outcome M A.

Definition ret {M A} (a : A) : Go M A := fun mem => Returns a mem.

Definition bind {M A B} (c : Go M A) (k : A -> Go M B) : Go M B :=
  fun mem =>
    match c mem with
    | Returns a mem' => k a mem'
    | Panics => Panics
    end.

(** [*o] read: a nil dereference panics. *)
Definition load {M} (o : ptr) : Go M M :=
  fun mem =>
    match o with
    | nil_ptr => Panics
    | container => Returns mem mem
    end.

(** [*o = v]. *)
Definition store {M} (o : ptr) (v : M) : Go M unit :=
  fun mem =>
    match o with
    | nil_ptr => Panics
    | container => Returns tt v
    end.

(** [*p] for a pointer [p] to a slice: a nil dereference panics. *)
Definition deref {M A} (p : option A) : Go M A :=
  fun mem =>
    match p with
    | None => Panics
    | Some v => Returns v mem
    end.

(** [o != nil] *)
Definition not_nil (o : ptr) : bool :=
  match o with
  | nil_ptr => false
  | container => true
  end.

Declare Scope go_scope.
Delimit Scope go_scope with go.
Notation "x <- c ;; k" := (bind c (fun x => k))
  (at level 61, c at next level, right associativity) : go_scope.
Notation "c ;; k" := (bind c (fun _ => k))
  (at level 61, right associativity) : go_scope.

(** ** The container *)

Section Corim.
Context `{SW : swid} `{CO : comid} `{EA : eat}.

Local Open Scope go_scope.

(** [NewUnsignedCorim()]: the zero value of the struct. *)
Definition NewUnsignedCorim : UnsignedCorim :=
  mkUnsignedCorim _ _ TagID_zero [] None None.

(** Field assignments [o.ID = v], [o.Tags = v], ... through the pointer. *)
Definition assign_ID (o : ptr) (v : TagID) : Go UnsignedCorim unit :=
  s <- load o ;;
  store o (mkUnsignedCorim _ _ v (Tags s) (DependentRims s) (Profiles s)).

Definition assign_Tags (o : ptr) (v : list Tag) : Go UnsignedCorim unit :=
  s <- load o ;;
  store o (mkUnsignedCorim _ _ (ID s) v (DependentRims s) (Profiles s)).

Definition assign_DependentRims (o : ptr) (v : option (list Locator))
  : Go UnsignedCorim unit :=
  s <- load o ;;
  store o (mkUnsignedCorim _ _ (ID s) (Tags s) v (Profiles s)).

Definition assign_Profiles (o : ptr) (v : option (list Profile))
  : Go UnsignedCorim unit :=
  s <- load o ;;
  store o (mkUnsignedCorim _ _ (ID s) (Tags s) (DependentRims s) v).

(** [func (o *UnsignedCorim) SetID(v interface{}) *UnsignedCorim] *)
Definition SetID (o : ptr) (v : interface) : Go UnsignedCorim ptr :=
  if not_nil o then
    match NewTagID v with
    | None => ret nil_ptr
    | Some tagID =>
        assign_ID o tagID ;;
        ret o
    end
  else ret o.

(** [func (o UnsignedCorim) GetID() string] *)
Definition GetID (o : UnsignedCorim) : string := TagID_String (ID o).

(** The tag prefixes: [d9 01fa] is tag(506), [d9 01f9] is tag(505). *)
Definition comidTag : bytes := [Init.Byte.xd9; Init.Byte.x01; Init.Byte.xfa].
Definition coswidTag : bytes := [Init.Byte.xd9; Init.Byte.x01; Init.Byte.xf9].

(** [func (o *UnsignedCorim) AddComid(c comid.Comid) *UnsignedCorim] *)
Definition AddComid (o : ptr) (c : Comid) : Go UnsignedCorim ptr :=
  if not_nil o then
    match Comid_Valid c with
    | Some _ => ret nil_ptr
    | None =>
        match Comid_ToCBOR c with
        | inr _ => ret nil_ptr
        | inl comidCBOR =>
            let taggedComid := comidTag ++ comidCBOR in
            s <- load o ;;
            assign_Tags o (Tags s ++ [taggedComid]) ;;
            ret o
        end
    end
  else ret o.

(** [func (o *UnsignedCorim) AddCoswid(c swid.SoftwareIdentity) *UnsignedCorim].
    The source validates nothing here: "the swid package doesn't offer an
    interface for validating the supplied CoSWID, so -- for now -- we take
    any input for granted and pass it to the encoder". *)
Definition AddCoswid (o : ptr) (c : SoftwareIdentity) : Go UnsignedCorim ptr :=
  if not_nil o then
    match SoftwareIdentity_ToCBOR c with
    | inr _ => ret nil_ptr
    | inl coswidCBOR =>
        let taggedCoswid := coswidTag ++ coswidCBOR in
        s <- load o ;;
        assign_Tags o (Tags s ++ [taggedCoswid]) ;;
        ret o
    end
  else ret o.

(** [func (o *UnsignedCorim) AddDependentRim(href string, thumbprint *swid.HashEntry) *UnsignedCorim] *)
Definition AddDependentRim (o : ptr) (href : string) (thumbprint : option HashEntry)
  : Go UnsignedCorim ptr :=
  if not_nil o then
    let l := mkLocator href thumbprint in
    s <- load o ;;
    (match DependentRims s with
     | None => assign_DependentRims o (Some [])
     | Some _ => ret tt
     end) ;;
    s <- load o ;;
    rims <- deref (DependentRims s) ;;
    assign_DependentRims o (Some (rims ++ [l])) ;;
    ret o
  else ret o.

(** [func (o *UnsignedCorim) AddProfile(urlOrOID string) *UnsignedCorim] *)
Definition AddProfile (o : ptr) (urlOrOID : string) : Go UnsignedCorim ptr :=
  if not_nil o then
    match NewProfile urlOrOID with
    | inr _ => ret nil_ptr
    | inl p =>
        s <- load o ;;
        (match Profiles s with
         | None => assign_Profiles o (Some [])
         | Some _ => ret tt
         end) ;;
        s <- load o ;;
        ps <- deref (Profiles s) ;;
        assign_Profiles o (Some (ps ++ [p])) ;;
        ret o
    end
  else ret o.

(** ** Validation *)

(** [func (o Tag) Valid() error] *)
Definition Tag_Valid (o : Tag) : option error :=
  if Nat.eqb (length o) 0 then Some (errors_New "empty tag") else None.

(** [func (o Locator) Valid() error] *)
Definition Locator_Valid (o : Locator) : option error :=
  if TaggedURI_Empty (Href o) then Some (errors_New "empty href")
  else
    match Thumbprint o with
    | Some tp =>
        match ValidHashEntry (HashAlgID tp) (HashValue tp) with
        | Some err => Some (Errorf_w "invalid locator thumbprint: %w" err)
        | None => None
        end
    | None => None
    end.

(** [func ValidProfile(p eat.Profile) error] *)
Definition ValidProfile (p : Profile) : option error :=
  if negb (IsOID p) && negb (IsURI p)
  then Some (errors_New "profile should be OID or URI")
  else None.

(** [for i, x := range l { if err := valid(x); err != nil { return
    fmt.Errorf(format, i, err) } }], the loop running from position [i]:
    [Some] is the error returned from inside the loop, [None] its normal
    end. *)
Fixpoint range {A} (valid : A -> option error) (format : string)
  (i : nat) (l : list A) : option error :=
  match l with
  | [] => None
  | x :: rest =>
      match valid x with
      | Some err => Some (Errorf_d_w format i err)
      | None => range valid format (S i) rest
      end
  end.

(** [func (o UnsignedCorim) Valid() error] *)
Definition Valid (o : UnsignedCorim) : option error :=
  if TagID_eq_dec (ID o) TagID_zero then Some (fmt_Errorf "empty id")
  else if Nat.eqb (length (Tags o)) 0
  then Some (errors_New "tags validation failed: no tags")
  else
    match range Tag_Valid "tag validation failed at pos %d: %w" 0 (Tags o) with
    | Some err => Some err
    | None =>
        match
          match DependentRims o with
          | Some rims =>
              range Locator_Valid "dependent RIM validation failed at pos %d: %w" 0 rims
          | None => None
          end
        with
        | Some err => Some err
        | None =>
            match Profiles o with
            | Some ps =>
                range ValidProfile "profile validation failed at pos %d: %w" 0 ps
            | None => None
            end
        end
    end.

(** ** The validator as the specification words it *)

(** The five categories of the top-level validator, each on its own:
    1. the identifier is not the empty sentinel; 2. the tag list is not
    empty; 3. each tag in order; 4. each locator in order, when the list is
    present; 5. each profile in order, when the list is present. *)
Definition category1 (o : UnsignedCorim) : option error :=
  if TagID_eq_dec (ID o) TagID_zero then Some (errors_New "empty id") else None.

Definition category2 (o : UnsignedCorim) : option error :=
  match Tags o with
  | [] => Some (errors_New "tags validation failed: no tags")
  | _ :: _ => None
  end.

Definition category3 (o : UnsignedCorim) : option error :=
  range Tag_Valid "tag validation failed at pos %d: %w" 0 (Tags o).

Definition category4 (o : UnsignedCorim) : option error :=
  match DependentRims o with
  | Some rims =>
      range Locator_Valid "dependent RIM validation failed at pos %d: %w" 0 rims
  | None => None
  end.

Definition category5 (o : UnsignedCorim) : option error :=
  match Profiles o with
  | Some ps => range ValidProfile "profile validation failed at pos %d: %w" 0 ps
  | None => None
  end.

(** Checks taken in the listed order, stopping at the first that fails. *)
Fixpoint first_failure (checks : list (option error)) : option error :=
  match checks with
  | [] => None
  | Some err :: _ => Some err
  | None :: rest => first_failure rest
  end.

(** The elements of an optional list: none when the list is absent. *)
Definition elements {A} (l : option (list A)) : list A :=
  match l with
  | Some xs => xs
  | None => []
  end.

End Corim.

(** ** Wire documents and decoding *)

(** Modelled from the spec: the decoder services ([dm], configured in the
    package's [cbor.go], and [encoding/json]) are not part of this file.
    The spec's binary and text wire forms are, by the source's own names,
    CBOR and JSON; [Item] is the document that either holds: CBOR unsigned
    integers, byte strings, text strings, arrays, maps, tags and the simple
    values false, true and null; JSON non-negative integers, strings,
    arrays, objects, false, true and null. *)
#[warnings="-register-all"]
Inductive Item : Type :=
| Null
| Bool (b : bool)
| UInt (n : N)
| Bytes (b : bytes)
| Text (s : string)
| Array (l : list Item)
| Map (l : list (Item * Item))
| Tagged (t : N) (i : Item).

(** Equality test of two documents. *)
Fixpoint Item_eqb (i j : Item) : bool :=
  match i, j with
  | Null, Null => true
  | Bool a, Bool b => Bool.eqb a b
  | UInt n, UInt m => N.eqb n m
  | Bytes a, Bytes b => if list_eq_dec Byte.byte_eq_dec a b then true else false
  | Text s, Text t => String.eqb s t
  | Array l, Array l' =>
      (fix all2 (l l' : list Item) : bool :=
         match l, l' with
         | [], [] => true
         | x :: r, y :: r' => Item_eqb x y && all2 r r'
         | _, _ => false
         end) l l'
  | Map l, Map l' =>
      (fix all2 (l l' : list (Item * Item)) : bool :=
         match l, l' with
         | [], [] => true
         | (k, x) :: r, (k', y) :: r' =>
             Item_eqb k k' && Item_eqb x y && all2 r r'
         | _, _ => false
         end) l l'
  | Tagged t x, Tagged t' y => N.eqb t t' && Item_eqb x y
  | _, _ => false
  end.

(** *** The binary form *)

(** Modelled from the spec: the binary engine is missing; the argument of
    a CBOR head is a big-endian number. *)
Definition big_endian (bs : bytes) : N :=
  fold_left (fun acc b => (acc * 256 + Byte.to_N b)%N) bs 0%N.

(** The first [n] bytes and the rest, when there are [n]. *)
Definition split_at (n : nat) (data : bytes) : option (bytes * bytes) :=
  if Nat.ltb (length data) n then None
  else Some (firstn n data, skipn n data).

(** Modelled from the spec: the binary engine is missing; the head of a
    CBOR data item, as in the source's own [d9 01fa # tag(506)]: the major type
    (high three bits of the first byte), the additional information (low
    five bits) and the argument, which is the additional information itself
    below 24 and otherwise the next 1, 2, 4 or 8 bytes.  The additional
    information 28 to 30 is not well formed; 31 (indefinite length) is
    outside what is modelled. *)
Definition cbor_head (data : bytes) : option (N * N * N * bytes) :=
  match data with
  | [] => None
  | b :: rest =>
      let major := (Byte.to_N b / 32)%N in
      let info := (Byte.to_N b mod 32)%N in
      if N.ltb info 24 then Some (major, info, info, rest)
      else
        match
          (if N.eqb info 24 then Some 1
           else if N.eqb info 25 then Some 2
           else if N.eqb info 26 then Some 4
           else if N.eqb info 27 then Some 8
           else None)
        with
        | Some width =>
            match split_at width rest with
            | Some (arg, rest') => Some (major, info, big_endian arg, rest')
            | None => None
            end
        | None => None
        end
  end.

(** [n] items in a row, each read by [p]. *)
Fixpoint sequence {A} (p : bytes -> option (A * bytes)) (n : nat) (data : bytes)
  : option (list A * bytes) :=
  match n with
  | O => Some ([], data)
  | S n' =>
      match p data with
      | Some (x, rest) =>
          match sequence p n' rest with
          | Some (xs, rest') => Some (x :: xs, rest')
          | None => None
          end
      | None => None
      end
  end.

(** Text is modelled for ASCII only (a decoder also checks UTF-8). *)
Definition ascii_only (bs : bytes) : bool :=
  forallb (fun b => N.ltb (Byte.to_N b) 128) bs.

(** Modelled from the spec: the binary engine is missing; one CBOR data
    item read from the front of [data], with the bytes that follow it.
    [fuel] bounds the nesting and is never short at one more than the length
    of the data; a declared length is cut at one more than what is left, so
    that a length that cannot be met is refused without being counted out.
    Negative integers, floats, other simple values and indefinite lengths
    are outside what is modelled and read as [None], like ill-formed
    bytes. *)
Fixpoint cbor_item (fuel : nat) (data : bytes) : option (Item * bytes) :=
  match fuel with
  | O => None
  | S fuel' =>
      match cbor_head data with
      | None => None
      | Some (major, info, n, rest) =>
          if N.eqb major 0 then Some (UInt n, rest)
          else if N.eqb major 2 then
            match split_at (N.to_nat (N.min n (N.of_nat (S (length rest))))) rest with
            | Some (b, rest') => Some (Bytes b, rest')
            | None => None
            end
          else if N.eqb major 3 then
            match split_at (N.to_nat (N.min n (N.of_nat (S (length rest))))) rest with
            | Some (b, rest') =>
                if ascii_only b then Some (Text (string_of_list_byte b), rest')
                else None
            | None => None
            end
          else if N.eqb major 4 then
            if N.ltb (N.of_nat (length rest)) n then None
            else
              match sequence (cbor_item fuel') (N.to_nat n) rest with
              | Some (l, rest') => Some (Array l, rest')
              | None => None
              end
          else if N.eqb major 5 then
            if N.ltb (N.of_nat (length rest)) n then None
            else
              match
                sequence
                  (fun d =>
                     match cbor_item fuel' d with
                     | Some (k, d') =>
                         match cbor_item fuel' d' with
                         | Some (v, d'') => Some ((k, v), d'')
                         | None => None
                         end
                     | None => None
                     end)
                  (N.to_nat n) rest
              with
              | Some (l, rest') => Some (Map l, rest')
              | None => None
              end
          else if N.eqb major 6 then
            match cbor_item fuel' rest with
            | Some (i, rest') => Some (Tagged n i, rest')
            | None => None
            end
          else if N.eqb major 7 then
            if N.eqb info 20 then Some (Bool false, rest)
            else if N.eqb info 21 then Some (Bool true, rest)
            else if N.eqb info 22 then Some (Null, rest)
            else None
          else None
      end
  end.

(** Modelled from the spec: the binary engine reading a whole input: one
    data item and nothing after it; anything else is a codec error. *)
Definition cbor_read (data : bytes) : Item + error :=
  match cbor_item (S (length data)) data with
  | Some (i, []) => inl i
  | Some (_, _ :: _) => inr (errors_New "cbor: extraneous data")
  | None => inr (errors_New "cbor: cannot read the data item")
  end.

(** *** The text form *)

(** JSON white space. *)
Fixpoint skip_ws (data : bytes) : bytes :=
  match data with
  | b :: rest =>
      if N.eqb (Byte.to_N b) 32 || N.eqb (Byte.to_N b) 9
         || N.eqb (Byte.to_N b) 10 || N.eqb (Byte.to_N b) 13
      then skip_ws rest
      else data
  | [] => []
  end.

(** Modelled from the spec: the characters of a JSON string after its
    opening quote, up to the closing quote.  Control characters are not
    allowed in a string; escapes and non-ASCII characters are outside what
    is modelled. *)
Fixpoint json_chars (data : bytes) : option (bytes * bytes) :=
  match data with
  | [] => None
  | b :: rest =>
      let c := Byte.to_N b in
      if N.eqb c 34 then Some ([], rest)
      else if N.eqb c 92 || N.ltb c 32 || N.leb 128 c then None
      else
        match json_chars rest with
        | Some (s, rest') => Some (b :: s, rest')
        | None => None
        end
  end.

(** The decimal digits at the front of [data], as a number from [acc]. *)
Fixpoint json_digits (acc : N) (data : bytes) : N * bytes :=
  match data with
  | b :: rest =>
      let c := Byte.to_N b in
      if N.leb 48 c && N.leb c 57 then json_digits (acc * 10 + (c - 48))%N rest
      else (acc, data)
  | [] => (acc, [])
  end.

(** A number stops before anything but a fraction or an exponent, which are
    outside what is modelled. *)
Definition ends_number (data : bytes) : bool :=
  match data with
  | b :: _ =>
      let c := Byte.to_N b in
      negb (N.eqb c 46 || N.eqb c 101 || N.eqb c 69)
  | [] => true
  end.

(** Modelled from the spec: one JSON value read from the front of [data]
    (white space before it skipped), with the bytes that follow it; then the
    elements of an array after its first bracket, and the members of an
    object after its first brace.  [fuel] bounds the number of steps.
    Negative numbers, fractions, exponents, escapes and non-ASCII text are
    outside what is modelled and read as [None], like ill-formed text. *)
Fixpoint json_value (fuel : nat) (data : bytes) : option (Item * bytes) :=
  match fuel with
  | O => None
  | S fuel' =>
      match skip_ws data with
      | [] => None
      | b :: rest =>
          let c := Byte.to_N b in
          if N.eqb c 123 then
            match skip_ws rest with
            | b' :: rest' =>
                if N.eqb (Byte.to_N b') 125 then Some (Map [], rest')
                else
                  match json_members fuel' (b' :: rest') with
                  | Some (l, rest'') => Some (Map l, rest'')
                  | None => None
                  end
            | [] => None
            end
          else if N.eqb c 91 then
            match skip_ws rest with
            | b' :: rest' =>
                if N.eqb (Byte.to_N b') 93 then Some (Array [], rest')
                else
                  match json_elements fuel' (b' :: rest') with
                  | Some (l, rest'') => Some (Array l, rest'')
                  | None => None
                  end
            | [] => None
            end
          else if N.eqb c 34 then
            match json_chars rest with
            | Some (s, rest') => Some (Text (string_of_list_byte s), rest')
            | None => None
            end
          else if N.eqb c 48 then
            match rest with
            | b' :: _ =>
                if N.leb 48 (Byte.to_N b') && N.leb (Byte.to_N b') 57 then None
                else if ends_number rest then Some (UInt 0, rest) else None
            | [] => Some (UInt 0, [])
            end
          else if N.leb 49 c && N.leb c 57 then
            let (n, rest') := json_digits 0 (b :: rest) in
            if ends_number rest' then Some (UInt n, rest') else None
          else
            match b :: rest with
            | b1 :: b2 :: b3 :: b4 :: rest' =>
                if list_eq_dec Byte.byte_eq_dec [b1; b2; b3; b4]
                     (list_byte_of_string "null")
                then Some (Null, rest')
                else if list_eq_dec Byte.byte_eq_dec [b1; b2; b3; b4]
                          (list_byte_of_string "true")
                then Some (Bool true, rest')
                else
                  match rest' with
                  | b5 :: rest'' =>
                      if list_eq_dec Byte.byte_eq_dec [b1; b2; b3; b4; b5]
                           (list_byte_of_string "false")
                      then Some (Bool false, rest'')
                      else None
                  | [] => None
                  end
            | _ => None
            end
      end
  end
with json_elements (fuel : nat) (data : bytes) : option (list Item * bytes) :=
  match fuel with
  | O => None
  | S fuel' =>
      match json_value fuel' data with
      | Some (x, rest) =>
          match skip_ws rest with
          | b :: rest' =>
              if N.eqb (Byte.to_N b) 93 then Some ([x], rest')
              else if N.eqb (Byte.to_N b) 44 then
                match json_elements fuel' rest' with
                | Some (xs, rest'') => Some (x :: xs, rest'')
                | None => None
                end
              else None
          | [] => None
          end
      | None => None
      end
  end
with json_members (fuel : nat) (data : bytes)
  : option (list (Item * Item) * bytes) :=
  match fuel with
  | O => None
  | S fuel' =>
      match skip_ws data with
      | b :: rest =>
          if N.eqb (Byte.to_N b) 34 then
            match json_chars rest with
            | Some (name, rest') =>
                match skip_ws rest' with
                | b' :: rest'' =>
                    if N.eqb (Byte.to_N b') 58 then
                      match json_value fuel' rest'' with
                      | Some (v, rest3) =>
                          let member := (Text (string_of_list_byte name), v) in
                          match skip_ws rest3 with
                          | b3 :: rest4 =>
                              if N.eqb (Byte.to_N b3) 125
                              then Some ([member], rest4)
                              else if N.eqb (Byte.to_N b3) 44 then
                                match json_members fuel' rest4 with
                                | Some (ms, rest5) => Some (member :: ms, rest5)
                                | None => None
                                end
                              else None
                          | [] => None
                          end
                      | None => None
                      end
                    else None
                | [] => None
                end
            | None => None
            end
          else None
      | [] => None
      end
  end.

(** Modelled from the spec: the text engine reading a whole input: one
    value, white space around it, and nothing else; anything else is a
    codec error. *)
Definition json_read (data : bytes) : Item + error :=
  match json_value (2 * length data + 2) data with
  | Some (i, rest) =>
      match skip_ws rest with
      | [] => inl i
      | _ :: _ => inr (errors_New "json: invalid character after top-level value")
      end
  | None => inr (errors_New "json: cannot read the value")
  end.

(** *** Decoding into the container *)

(** The keys of a wire format: those of the [UnsignedCorim] fields and those
    of the [Locator] fields. *)
Record keys : Type := mkKeys {
  key_ID : Item;
  key_Tags : Item;
  key_DependentRims : Item;
  key_Profiles : Item;
  key_Href : Item;
  key_Thumbprint : Item
}.

(** The struct tags [cbor:"0,keyasint"], [cbor:"1,keyasint"],
    [cbor:"2,keyasint,omitempty"], [cbor:"3,keyasint,omitempty"] of
    [UnsignedCorim] and [cbor:"0,keyasint"], [cbor:"1,keyasint,omitempty"]
    of [Locator]. *)
Definition cbor_keys : keys :=
  mkKeys (UInt 0) (UInt 1) (UInt 2) (UInt 3) (UInt 0) (UInt 1).

(** The struct tags [json:"corim-id"], [json:"tags"],
    [json:"dependent-rims,omitempty"], [json:"profiles,omitempty"] of
    [UnsignedCorim] and [json:"href"], [json:"thumbprint,omitempty"] of
    [Locator]. *)
Definition json_keys : keys :=
  mkKeys (Text "corim-id") (Text "tags") (Text "dependent-rims")
    (Text "profiles") (Text "href") (Text "thumbprint").

(** Modelled from the spec: the unmarshalers that the field types bring for
    one wire format (the identifier, the Tag bytes, the href, the thumbprint
    and the profile identifier), each reading a value from a document;
    [None] is a value the unmarshaler refuses. *)
Class unmarshalers `{swid} `{eat} : Type := {
  TagID_Unmarshal : Item -> option TagID;
  Tag_Unmarshal : Item -> option Tag;
  TaggedURI_Unmarshal : Item -> option TaggedURI;
  HashEntry_Unmarshal : Item -> option HashEntry;
  Profile_Unmarshal : Item -> option Profile
}.

(** The first value bound to key [k] in the entries of a map. *)
Fixpoint lookup (k : Item) (entries : list (Item * Item)) : option Item :=
  match entries with
  | [] => None
  | (k', v) :: rest => if Item_eqb k k' then Some v else lookup k rest
  end.

(** Decoding of each element of an array, failing at the first that fails. *)
Fixpoint traverse {A B} (f : A -> option B) (l : list A) : option (list B) :=
  match l with
  | [] => Some []
  | x :: rest =>
      match f x, traverse f rest with
      | Some y, Some ys => Some (y :: ys)
      | _, _ => None
      end
  end.

Section Decode.
Context `{SW : swid} `{EA : eat}.
Context (ks : keys) (U : unmarshalers).

(** Modelled from the spec: decode "reconstructs the aggregate shape
    field-by-field using the same key/name mapping": a field whose key is in
    the map is decoded from the value under it, a field whose key is not
    keeps the value [current] that the destination holds. *)
Definition field {A} (k : Item) (f : Item -> option A) (current : A)
  (entries : list (Item * Item)) : option A :=
  match lookup k entries with
  | Some v => f v
  | None => Some current
  end.

(** Modelled from the spec: an ordered sequence is an array of its encoded
    elements. *)
Definition decode_array {A} (f : Item -> option A) (i : Item)
  : option (list A) :=
  match i with
  | Array l => traverse f l
  | _ => None
  end.

(** Modelled from the spec: a field that is a pointer is set to point at
    the decoded value. *)
Definition decode_ptr {A} (f : Item -> option A) (i : Item)
  : option (option A) :=
  match f i with
  | Some a => Some (Some a)
  | None => None
  end.

(** Modelled from the spec: a Locator read from a map, href under its key
    and the optional thumbprint under its own; the element of a decoded list
    starts from the zero Locator. *)
Definition decode_Locator (i : Item) : option Locator :=
  match i with
  | Map entries =>
      match field (key_Href ks) TaggedURI_Unmarshal EmptyString entries,
            field (key_Thumbprint ks) (decode_ptr HashEntry_Unmarshal) None entries
      with
      | Some href, Some thumbprint => Some (mkLocator href thumbprint)
      | _, _ => None
      end
  | _ => None
  end.

(** Modelled from the spec: the aggregate read from a map into the
    container [dest] that the destination holds, each field under the key of
    the field key mapping; no semantic validation is performed. *)
Definition decode_UnsignedCorim (dest : UnsignedCorim) (i : Item)
  : option UnsignedCorim :=
  match i with
  | Map entries =>
      match field (key_ID ks) TagID_Unmarshal (ID dest) entries,
            field (key_Tags ks) (decode_array Tag_Unmarshal) (Tags dest) entries,
            field (key_DependentRims ks)
              (decode_ptr (decode_array decode_Locator))
              (DependentRims dest) entries,
            field (key_Profiles ks)
              (decode_ptr (decode_array Profile_Unmarshal))
              (Profiles dest) entries
      with
      | Some id, Some tags, Some rims, Some profiles =>
          Some (mkUnsignedCorim _ _ id tags rims profiles)
      | _, _, _, _ => None
      end
  | _ => None
  end.

(** Modelled from the spec: [Unmarshal(data, v)] of a decoder service whose
    engine is [read]: a nil destination is an error; bytes the engine cannot
    read, or a document that has not the expected shape, give a codec error
    and leave the destination as it was; otherwise the destination holds the
    decoded container and the error is nil. *)
Definition Unmarshal (read : bytes -> Item + error) (data : bytes) (v : ptr)
  : Go UnsignedCorim (option error) :=
  if not_nil v then
    match read data with
    | inr err => ret (Some err)
    | inl i =>
        bind (load v) (fun dest =>
        match decode_UnsignedCorim dest i with
        | Some o => bind (store v o) (fun _ => ret None)
        | None =>
            ret (Some (errors_New "cannot decode into the expected shape"))
        end)
    end
  else ret (Some (errors_New "invalid destination: nil pointer")).

End Decode.

Section Entry.
Context `{SW : swid} `{EA : eat}.
Context (cbor_fields : unmarshalers) (json_fields : unmarshalers).

(** Modelled from the spec: [dm.Unmarshal], the binary decoder that the
    package configures in [cbor.go], outside this file: the integer keys of
    the [cbor] struct tags over the binary engine. *)
Definition dm_Unmarshal (data : bytes) (v : ptr)
  : Go UnsignedCorim (option error) :=
  Unmarshal cbor_keys cbor_fields cbor_read data v.

(** Modelled from the spec: [json.Unmarshal] of [encoding/json]: the names
    of the [json] struct tags over the text engine. *)
Definition json_Unmarshal (data : bytes) (v : ptr)
  : Go UnsignedCorim (option error) :=
  Unmarshal json_keys json_fields json_read data v.

(** [func (o *UnsignedCorim) FromCBOR(data []byte) error] *)
Definition FromCBOR (o : ptr) (data : bytes) : Go UnsignedCorim (option error) :=
  dm_Unmarshal data o.

(** [func (o *UnsignedCorim) FromJSON(data []byte) error] *)
Definition FromJSON (o : ptr) (data : bytes) : Go UnsignedCorim (option error) :=
  json_Unmarshal data o.

End Entry.

(** The binary document [{1: []}] and the text document with the one member
    "tags" bound to [[]]: a tag list that is empty, and nothing else. *)
Definition empty_tags_cbor : bytes :=
  [Init.Byte.xa1; Init.Byte.x01; Init.Byte.x80].

Definition empty_tags_json : bytes :=
  [Init.Byte.x7b; Init.Byte.x22; Init.Byte.x74; Init.Byte.x61; Init.Byte.x67;
   Init.Byte.x73; Init.Byte.x22; Init.Byte.x3a; Init.Byte.x5b; Init.Byte.x5d;
   Init.Byte.x7d].

(** ** Reference collaborators *)

(** A minimal instance of the imported packages and of the environment's
    codec services, on which the properties below are run. *)
Module Ref.

(** A tag identifier is unset, a name or a 16-byte UUID. *)
Inductive TagID : Type :=
| tag_zero
| tag_name (s : string)
| tag_uuid (b : bytes).

Definition TagID_eq_dec (a b : TagID) : {a = b} + {a <> b}.
Proof.
  decide equality.
  - apply string_dec.
  - apply (list_eq_dec Byte.byte_eq_dec).
Defined.

Definition NewTagID (v : interface) : option TagID :=
  match v with
  | of_string EmptyString => None
  | of_string s => Some (tag_name s)
  | of_bytes b => if Nat.eqb (length b) 16 then Some (tag_uuid b) else None
  | of_other => None
  end.

Definition TagID_String (t : TagID) : string :=
  match t with
  | tag_zero => ""
  | tag_name s => s
  | tag_uuid b => string_of_list_byte b
  end.

(** A software identity document, with the check a validator of the format
    would make and the swid package does not offer. *)
Record SoftwareIdentity : Type := mkSoftwareIdentity {
  TagId : string;
  SoftwareName : string
}.

Definition SoftwareIdentity_Valid (c : SoftwareIdentity) : option error :=
  if String.eqb (SoftwareName c) ""
  then Some (errors_New "software-name is empty")
  else None.

Definition SoftwareIdentity_ToCBOR (c : SoftwareIdentity) : bytes + error :=
  inl (Init.Byte.xa2 :: list_byte_of_string (TagId c)
         ++ list_byte_of_string (SoftwareName c)).

Definition ValidHashEntry (alg : N) (value : bytes) : option error :=
  if N.eqb alg 1 then
    if Nat.eqb (length value) 32 then None
    else Some (errors_New "length mismatch for hash algorithm")
  else Some (errors_New "unknown hash algorithm").

#[global] Instance swid_ref : swid :=
  Build_swid TagID tag_zero TagID_eq_dec NewTagID TagID_String
    SoftwareIdentity SoftwareIdentity_ToCBOR ValidHashEntry.

(** A reference-value document: valid when it names its tag identity. *)
Record Comid : Type := mkComid {
  TagIdentity : string;
  Triples : bytes
}.

Definition Comid_Valid (c : Comid) : option error :=
  if String.eqb (TagIdentity c) "" then Some (errors_New "tag-identity is empty")
  else None.

Definition Comid_ToCBOR (c : Comid) : bytes + error :=
  match Triples c with
  | [] => inr (errors_New "no triples to encode")
  | t => inl (Init.Byte.xa1 :: t)
  end.

#[global] Instance comid_ref : comid :=
  Build_comid Comid Comid_Valid Comid_ToCBOR.

(** A profile identifier: a URI, an OID, or neither. *)
Inductive Profile : Type :=
| profile_uri (s : string)
| profile_oid (s : string)
| profile_neither.

Definition is_oid_char (c : ascii) : bool :=
  Nat.leb 48 (nat_of_ascii c) && Nat.leb (nat_of_ascii c) 57 || Ascii.eqb c ".".

Fixpoint all_chars (p : ascii -> bool) (s : string) : bool :=
  match s with
  | EmptyString => true
  | String c rest => p c && all_chars p rest
  end.

Definition NewProfile (s : string) : Profile + error :=
  if String.prefix "https://" s then inl (profile_uri s)
  else if negb (String.eqb s "") && all_chars is_oid_char s then inl (profile_oid s)
  else inr (errors_New "profile is neither a URI nor an OID").

Definition IsOID (p : Profile) : bool :=
  match p with
  | profile_oid _ => true
  | _ => false
  end.

Definition IsURI (p : Profile) : bool :=
  match p with
  | profile_uri _ => true
  | _ => false
  end.

#[global] Instance eat_ref : eat :=
  Build_eat Profile NewProfile IsOID IsURI.

(** The unmarshalers of the field types, the same in both formats: a name
    is a text, a UUID a byte string of 16 bytes; a Tag is a byte string; an
    href is a text; a thumbprint is the array of its algorithm and value; a
    profile is a text, parsed as [NewProfile] does. *)
Definition TagID_Unmarshal (i : Item) : option TagID :=
  match i with
  | Text s => NewTagID (of_string s)
  | Bytes b => NewTagID (of_bytes b)
  | _ => None
  end.

Definition Tag_Unmarshal (i : Item) : option Tag :=
  match i with
  | Bytes b => Some b
  | _ => None
  end.

Definition TaggedURI_Unmarshal (i : Item) : option TaggedURI :=
  match i with
  | Text u => Some u
  | _ => None
  end.

Definition HashEntry_Unmarshal (i : Item) : option HashEntry :=
  match i with
  | Array [UInt alg; Bytes value] => Some (mkHashEntry alg value)
  | _ => None
  end.

Definition Profile_Unmarshal (i : Item) : option Profile :=
  match i with
  | Text s =>
      match NewProfile s with
      | inl p => Some p
      | inr _ => None
      end
  | _ => None
  end.

#[global] Instance fields : unmarshalers :=
  Build_unmarshalers swid_ref eat_ref
    TagID_Unmarshal Tag_Unmarshal TaggedURI_Unmarshal HashEntry_Unmarshal
    Profile_Unmarshal.

(** Bytes written in hexadecimal. *)
Definition hex_digit (c : ascii) : N :=
  let n := N_of_ascii c in
  if N.leb 48 n && N.leb n 57 then (n - 48)%N
  else if N.leb 97 n && N.leb n 102 then (n - 87)%N
  else 0%N.

Fixpoint hex (s : string) : bytes :=
  match s with
  | String a (String b rest) =>
      match Byte.of_N (16 * hex_digit a + hex_digit b) with
      | Some x => x :: hex rest
      | None => hex rest
      end
  | _ => []
  end.

(** A valid CoMID, and a CoSWID the validator of its format would refuse
    (its software-name is empty) and the encoder accepts. *)
Definition a_comid : Comid := mkComid "vendor.example/rv" (hex "a0").
Definition rejected_coswid : SoftwareIdentity := mkSoftwareIdentity "fw" "".

(** A container over the reference packages. *)
Definition a_corim (id : TagID) (tags : list Tag) (rims : option (list Locator))
  (ps : option (list Profile)) : UnsignedCorim :=
  mkUnsignedCorim swid_ref eat_ref id tags rims ps.

(** The container that [SetID("id")] then [AddComid(a_comid)] build. *)
Definition corim : UnsignedCorim :=
  a_corim (tag_name "id") [hex "d901faa1a0"] None None.

(** A container with an id and no tag, and its binary and text encodings:
    the map [{0: "id", 1: []}] and the object with the members "corim-id"
    and "tags". *)
Definition untagged : UnsignedCorim :=
  a_corim (tag_name "id") [] None None.

Definition untagged_cbor : bytes := hex "a2006269640180".
Definition untagged_json : bytes :=
  hex "7b22636f72696d2d6964223a226964222c2274616773223a5b5d7d".

(** A valid container that already holds one dependent RIM. *)
Definition corim_with_rim : UnsignedCorim :=
  a_corim (tag_name "id") [hex "d901faa1a0"]
    (Some [mkLocator "https://example.org/rim" None]) None.

End Ref.

(** ** Properties *)

Section CorimProperties.
Context `{SW : swid} `{CO : comid} `{EA : eat}.

(** *** The validation loop *)

Lemma range_app {A} (valid : A -> option error) format (l1 l2 : list A) i :
  range valid format i (l1 ++ l2) =
  match range valid format i l1 with
  | Some err => Some err
  | None => range valid format (i + length l1) l2
  end.
Proof.
  revert i. induction l1 as [|x l1 IH]; intros i; simpl.
  - now rewrite Nat.add_0_r.
  - destruct (valid x); [reflexivity|].
    rewrite IH. now rewrite Nat.add_succ_comm.
Qed.

Lemma range_passes {A} (valid : A -> option error) format (l : list A) i :
  range valid format i l = None <-> Forall (fun x => valid x = None) l.
Proof.
  revert i. induction l as [|x l IH]; intros i; simpl.
  - split; auto.
  - destruct (valid x) eqn:E.
    + split; [discriminate|]. intros F. inversion F; congruence.
    + rewrite IH. split; [now constructor|]. intros F. now inversion F.
Qed.

Lemma range_first_failure {A} (valid : A -> option error) format
      (pre : list A) x post i err :
  Forall (fun y => valid y = None) pre ->
  valid x = Some err ->
  range valid format i (pre ++ x :: post) =
  Some (Errorf_d_w format (i + length pre) err).
Proof.
  intros Hpre Hx. rewrite range_app.
  rewrite (proj2 (range_passes valid format pre i) Hpre).
  simpl. now rewrite Hx.
Qed.

(** *** Builder operations *)

Ltac run_go :=
  unfold SetID, AddComid, AddCoswid, AddDependentRim, AddProfile,
    assign_ID, assign_Tags, assign_DependentRims, assign_Profiles,
    bind, ret, load, store, deref, not_nil; simpl.

Lemma AddComid_run (c : Comid) (m : UnsignedCorim) :
  AddComid container c m =
  match Comid_Valid c, Comid_ToCBOR c with
  | None, inl comidCBOR =>
      Returns container
        (mkUnsignedCorim _ _ (ID m) (Tags m ++ [comidTag ++ comidCBOR])
           (DependentRims m) (Profiles m))
  | _, _ => Returns nil_ptr m
  end.
Proof.
  run_go. destruct (Comid_Valid c); [reflexivity|].
  destruct (Comid_ToCBOR c); reflexivity.
Qed.

Lemma AddCoswid_run (c : SoftwareIdentity) (m : UnsignedCorim) :
  AddCoswid container c m =
  match SoftwareIdentity_ToCBOR c with
  | inl coswidCBOR =>
      Returns container
        (mkUnsignedCorim _ _ (ID m) (Tags m ++ [coswidTag ++ coswidCBOR])
           (DependentRims m) (Profiles m))
  | inr _ => Returns nil_ptr m
  end.
Proof.
  run_go. destruct (SoftwareIdentity_ToCBOR c); reflexivity.
Qed.

Lemma SetID_run (v : interface) (m : UnsignedCorim) :
  SetID container v m =
  match NewTagID v with
  | Some tagID =>
      Returns container
        (mkUnsignedCorim _ _ tagID (Tags m) (DependentRims m) (Profiles m))
  | None => Returns nil_ptr m
  end.
Proof.
  run_go. destruct (NewTagID v); reflexivity.
Qed.

Lemma AddDependentRim_run href thumbprint (m : UnsignedCorim) :
  AddDependentRim container href thumbprint m =
  Returns container
    (mkUnsignedCorim _ _ (ID m) (Tags m)
       (Some (elements (DependentRims m) ++ [mkLocator href thumbprint]))
       (Profiles m)).
Proof.
  destruct m as [id tags [rims|] ps]; reflexivity.
Qed.

Lemma AddProfile_run (urlOrOID : string) (m : UnsignedCorim) :
  AddProfile container urlOrOID m =
  match NewProfile urlOrOID with
  | inl p =>
      Returns container
        (mkUnsignedCorim _ _ (ID m) (Tags m) (DependentRims m)
           (Some (elements (Profiles m) ++ [p])))
  | inr _ => Returns nil_ptr m
  end.
Proof.
  run_go. destruct (NewProfile urlOrOID); [|reflexivity].
  destruct m as [id tags rims [ps|]]; reflexivity.
Qed.

(** *** The claims on the builder operations *)

(** C1 (amended): [AddComid] validates the CoMID with the document's own
    [Valid] before insertion: a document that fails it makes the operation
    return nil with the container unchanged, and an insertion happened only
    for a document that passes.  [AddCoswid] applies no validator (the swid
    package offers none): it fails exactly when the serializer fails, the
    container unchanged, and otherwise appends the tagged document. *)
Theorem AddComid_validates_AddCoswid_does_not (m : UnsignedCorim) :
  (forall o c err, Comid_Valid c = Some err -> AddComid o c m = Returns nil_ptr m) /\
  (forall c m', AddComid container c m = Returns container m' ->
                Comid_Valid c = None) /\
  (forall o c err, SoftwareIdentity_ToCBOR c = inr err ->
                   AddCoswid o c m = Returns nil_ptr m) /\
  (forall c coswidCBOR, SoftwareIdentity_ToCBOR c = inl coswidCBOR ->
     AddCoswid container c m =
     Returns container
       (mkUnsignedCorim _ _ (ID m) (Tags m ++ [coswidTag ++ coswidCBOR])
          (DependentRims m) (Profiles m))).
Proof.
  repeat split.
  - intros [|] c err Hc; [reflexivity|].
    rewrite AddComid_run, Hc. reflexivity.
  - intros c m' Hrun. rewrite AddComid_run in Hrun.
    destruct (Comid_Valid c); [discriminate|reflexivity].
  - intros [|] c err Hc; [reflexivity|].
    rewrite AddCoswid_run, Hc. reflexivity.
  - intros c doc Hc. rewrite AddCoswid_run, Hc. reflexivity.
Qed.

(** C2: the Tag appended for a sub-manifest is the three bytes [D9 01 FA]
    (CoMID) or [D9 01 F9] (CoSWID) followed by the serialized document, byte
    for byte: a valid document that serializes is appended so, and every
    successful call appended such a Tag at the end of the list. *)
Theorem tag_is_prefix_then_document (m : UnsignedCorim) :
  (forall c doc, Comid_Valid c = None -> Comid_ToCBOR c = inl doc ->
     AddComid container c m =
     Returns container
       (mkUnsignedCorim _ _ (ID m)
          (Tags m ++ [Init.Byte.xd9 :: Init.Byte.x01 :: Init.Byte.xfa :: doc])
          (DependentRims m) (Profiles m))) /\
  (forall c doc, SoftwareIdentity_ToCBOR c = inl doc ->
     AddCoswid container c m =
     Returns container
       (mkUnsignedCorim _ _ (ID m)
          (Tags m ++ [Init.Byte.xd9 :: Init.Byte.x01 :: Init.Byte.xf9 :: doc])
          (DependentRims m) (Profiles m))) /\
  (forall c m', AddComid container c m = Returns container m' ->
     exists doc, Comid_ToCBOR c = inl doc /\
       Tags m' = Tags m ++ [[Init.Byte.xd9; Init.Byte.x01; Init.Byte.xfa] ++ doc]) /\
  (forall c m', AddCoswid container c m = Returns container m' ->
     exists doc, SoftwareIdentity_ToCBOR c = inl doc /\
       Tags m' = Tags m ++ [[Init.Byte.xd9; Init.Byte.x01; Init.Byte.xf9] ++ doc]).
Proof.
  repeat split.
  - intros c doc Hv Hc. rewrite AddComid_run, Hv, Hc. reflexivity.
  - intros c doc Hc. rewrite AddCoswid_run, Hc. reflexivity.
  - intros c m' Hrun. rewrite AddComid_run in Hrun.
    destruct (Comid_Valid c); [discriminate|].
    destruct (Comid_ToCBOR c) as [doc|]; [|discriminate].
    exists doc. split; [reflexivity|].
    injection Hrun as <-. reflexivity.
  - intros c m' Hrun. rewrite AddCoswid_run in Hrun.
    destruct (SoftwareIdentity_ToCBOR c) as [doc|]; [|discriminate].
    exists doc. split; [reflexivity|].
    injection Hrun as <-. reflexivity.
Qed.

(** C6: a builder operation that fails (returns nil) leaves the container as
    it was: every field after the call is the field before it.  [SetID]
    fails so on every input that [swid.NewTagID] cannot normalize, the empty
    string for one. *)
Theorem failed_builder_leaves_container (o : ptr) (m m' : UnsignedCorim) :
  (forall v, SetID o v m = Returns nil_ptr m' -> m' = m) /\
  (forall c, AddComid o c m = Returns nil_ptr m' -> m' = m) /\
  (forall c, AddCoswid o c m = Returns nil_ptr m' -> m' = m) /\
  (forall urlOrOID, AddProfile o urlOrOID m = Returns nil_ptr m' -> m' = m) /\
  (forall v, NewTagID v = None -> SetID container v m = Returns nil_ptr m).
Proof.
  repeat split.
  - intros v. destruct o; [intros [= <-]; reflexivity|].
    rewrite SetID_run. destruct (NewTagID v); [discriminate|].
    intros [= <-]. reflexivity.
  - intros c. destruct o; [intros [= <-]; reflexivity|].
    rewrite AddComid_run. destruct (Comid_Valid c); [intros [= <-]; reflexivity|].
    destruct (Comid_ToCBOR c); [discriminate|]. intros [= <-]. reflexivity.
  - intros c. destruct o; [intros [= <-]; reflexivity|].
    rewrite AddCoswid_run. destruct (SoftwareIdentity_ToCBOR c); [discriminate|].
    intros [= <-]. reflexivity.
  - intros s. destruct o; [intros [= <-]; reflexivity|].
    rewrite AddProfile_run. destruct (NewProfile s); [discriminate|].
    intros [= <-]. reflexivity.
  - intros v Hv. rewrite SetID_run, Hv. reflexivity.
Qed.

(** C8: [AddProfile] hands its argument to the URI-or-OID parser: when the
    parser refuses the string the operation returns nil and nothing changes;
    when it yields a profile, that profile is appended at the end of the
    profile list, which is created when absent. *)
Theorem AddProfile_parses_then_appends (urlOrOID : string) (m : UnsignedCorim) :
  (forall err, NewProfile urlOrOID = inr err ->
     AddProfile container urlOrOID m = Returns nil_ptr m) /\
  (forall p, NewProfile urlOrOID = inl p ->
     AddProfile container urlOrOID m =
     Returns container
       (mkUnsignedCorim _ _ (ID m) (Tags m) (DependentRims m)
          (Some (elements (Profiles m) ++ [p])))).
Proof.
  split.
  - intros err Hp. rewrite AddProfile_run, Hp. reflexivity.
  - intros p Hp. rewrite AddProfile_run, Hp. reflexivity.
Qed.

(** C10: on a nil receiver each of the five builder operations returns nil
    without a panic and without touching memory; so a chain whose first step
    has failed runs its remaining steps as such no-ops and ends in nil with
    the container unchanged. *)
Theorem nil_receiver_is_no_op (m : UnsignedCorim) :
  (forall v, SetID nil_ptr v m = Returns nil_ptr m) /\
  (forall c, AddComid nil_ptr c m = Returns nil_ptr m) /\
  (forall c, AddCoswid nil_ptr c m = Returns nil_ptr m) /\
  (forall href thumbprint,
     AddDependentRim nil_ptr href thumbprint m = Returns nil_ptr m) /\
  (forall urlOrOID, AddProfile nil_ptr urlOrOID m = Returns nil_ptr m) /\
  (forall v c c' href thumbprint urlOrOID,
     NewTagID v = None ->
     (o1 <- SetID container v ;;
      o2 <- AddComid o1 c ;;
      o3 <- AddCoswid o2 c' ;;
      o4 <- AddDependentRim o3 href thumbprint ;;
      AddProfile o4 urlOrOID)%go m = Returns nil_ptr m).
Proof.
  repeat split.
  intros v c c' href thumbprint s Hv.
  unfold bind at 1. rewrite SetID_run, Hv. reflexivity.
Qed.

(** *** The claims on the validator *)

Lemma Valid_by_category (o : UnsignedCorim) :
  Valid o =
  first_failure [category1 o; category2 o; category3 o; category4 o; category5 o].
Proof.
  unfold Valid, category1, category2, category3, category4, category5, fmt_Errorf.
  destruct (TagID_eq_dec (ID o) TagID_zero); [reflexivity|].
  destruct (Tags o) as [|t tags] eqn:Htags; [reflexivity|].
  cbn [length Nat.eqb first_failure].
  destruct (range Tag_Valid _ 0 (t :: tags)); [reflexivity|].
  destruct (DependentRims o) as [rims|].
  - destruct (range Locator_Valid _ 0 rims); [reflexivity|].
    destruct (Profiles o) as [ps|]; [|reflexivity].
    destruct (range ValidProfile _ 0 ps); reflexivity.
  - destruct (Profiles o) as [ps|]; [|reflexivity].
    destruct (range ValidProfile _ 0 ps); reflexivity.
Qed.

Lemma first_failure_none (checks : list (option error)) :
  first_failure checks = None <-> Forall (fun c => c = None) checks.
Proof.
  induction checks as [|[err|] rest IH]; simpl.
  - split; auto.
  - split; [discriminate|]. intros F. inversion F. discriminate.
  - rewrite IH. split; [now constructor|]. intros F. now inversion F.
Qed.

Lemma Valid_passes (o : UnsignedCorim) :
  Valid o = None <->
  ID o <> TagID_zero /\ Tags o <> [] /\
  Forall (fun t => Tag_Valid t = None) (Tags o) /\
  Forall (fun l => Locator_Valid l = None) (elements (DependentRims o)) /\
  Forall (fun p => ValidProfile p = None) (elements (Profiles o)).
Proof.
  rewrite Valid_by_category, first_failure_none.
  assert (H1 : category1 o = None <-> ID o <> TagID_zero).
  { unfold category1. destruct (TagID_eq_dec (ID o) TagID_zero);
      split; try discriminate; try contradiction; auto. }
  assert (H2 : category2 o = None <-> Tags o <> []).
  { unfold category2. destruct (Tags o);
      split; try discriminate; try contradiction; auto. }
  assert (H3 : category3 o = None <->
               Forall (fun t => Tag_Valid t = None) (Tags o))
    by apply range_passes.
  assert (H4 : category4 o = None <->
               Forall (fun l => Locator_Valid l = None) (elements (DependentRims o))).
  { unfold category4. destruct (DependentRims o); cbn [elements].
    - apply range_passes.
    - split; auto. }
  assert (H5 : category5 o = None <->
               Forall (fun p => ValidProfile p = None) (elements (Profiles o))).
  { unfold category5. destruct (Profiles o); cbn [elements].
    - apply range_passes.
    - split; auto. }
  rewrite <- H1, <- H2, <- H3, <- H4, <- H5.
  split.
  - intros F.
    repeat match goal with
           | F : Forall _ (_ :: _) |- _ => inversion F; subst; clear F
           end.
    repeat split; assumption.
  - intros (A1 & A2 & A3 & A4 & A5). repeat constructor; assumption.
Qed.

(** C3: the validator is the five category checks taken in their fixed
    order and stopped at the first that fails.  In particular a container
    whose id is the empty sentinel gets the error "empty id" whatever its
    tags, locators and profiles are, and so does the freshly constructed
    container (never "no tags"). *)
Theorem Valid_checks_categories_in_order :
  (forall o : UnsignedCorim,
     Valid o =
     first_failure
       [category1 o; category2 o; category3 o; category4 o; category5 o]) /\
  (forall tags rims ps,
     Valid (mkUnsignedCorim _ _ TagID_zero tags rims ps) =
     Some (errors_New "empty id")) /\
  Valid NewUnsignedCorim = Some (errors_New "empty id").
Proof.
  split; [exact Valid_by_category|].
  assert (H : forall tags rims ps,
             Valid (mkUnsignedCorim _ _ TagID_zero tags rims ps) =
             Some (errors_New "empty id")).
  { intros tags rims ps. unfold Valid, fmt_Errorf. cbn [ID].
    destruct (TagID_eq_dec TagID_zero TagID_zero) as [_|Hne];
      [reflexivity|contradiction]. }
  split; [exact H|apply H].
Qed.

(** C4: when the id is set and the tag list holds a zero-length Tag, the
    validator returns the category-3 error with the zero-based index of the
    first such Tag; the tags after it, the locators and the profiles have no
    part in the result. *)
Theorem Valid_reports_first_empty_tag
    (id : TagID) (pre post : list Tag) rims ps :
  id <> TagID_zero ->
  Forall (fun t : Tag => t <> []) pre ->
  Valid (mkUnsignedCorim _ _ id (pre ++ [] :: post) rims ps) =
  Some (Errorf_d_w "tag validation failed at pos %d: %w" (length pre)
          (errors_New "empty tag")).
Proof.
  intros Hid Hpre. unfold Valid. cbn [ID Tags].
  destruct (TagID_eq_dec id TagID_zero) as [|_]; [contradiction|].
  destruct (Nat.eqb (length (pre ++ [] :: post)) 0) eqn:Hlen.
  { apply Nat.eqb_eq in Hlen. rewrite length_app in Hlen. simpl in Hlen. lia. }
  rewrite (range_first_failure Tag_Valid _ pre [] post 0 (errors_New "empty tag")).
  - reflexivity.
  - eapply Forall_impl; [|exact Hpre]. intros t Ht.
    unfold Tag_Valid. destruct t; [contradiction|reflexivity].
  - reflexivity.
Qed.

(** C7 (amended): [AddDependentRim] validates nothing: for every href, the
    empty one included, and every thumbprint it appends the Locator at the
    end of the dependent-RIM list, created when absent, and returns the
    container.  The defect shows in the validator: after adding the empty
    href to a valid container, [Valid] fails in category 4 with "empty
    href" at the position of the new Locator, which is the number of
    locators the container held before (0 when it held none). *)
Theorem AddDependentRim_defers_validation
    (m : UnsignedCorim) (href : string) (thumbprint : option HashEntry) :
  AddDependentRim container href thumbprint m =
  Returns container
    (mkUnsignedCorim _ _ (ID m) (Tags m)
       (Some (elements (DependentRims m) ++ [mkLocator href thumbprint]))
       (Profiles m)) /\
  (Valid m = None ->
   Valid (mkUnsignedCorim _ _ (ID m) (Tags m)
            (Some (elements (DependentRims m) ++ [mkLocator "" thumbprint]))
            (Profiles m)) =
   Some (Errorf_d_w "dependent RIM validation failed at pos %d: %w"
           (length (elements (DependentRims m))) (errors_New "empty href"))).
Proof.
  split; [apply AddDependentRim_run|].
  intros Hvalid. apply Valid_passes in Hvalid.
  destruct Hvalid as (Hid & Htags & H3 & H4 & _).
  unfold Valid. cbn [ID Tags DependentRims Profiles].
  destruct (TagID_eq_dec (ID m) TagID_zero) as [|_]; [contradiction|].
  destruct (Tags m) as [|t tags]; [contradiction|].
  cbn [length Nat.eqb].
  rewrite (proj2 (range_passes Tag_Valid _ (t :: tags) 0) H3).
  rewrite (range_first_failure Locator_Valid _ _ (mkLocator "" thumbprint) []
             0 (errors_New "empty href") H4); reflexivity.
Qed.

End CorimProperties.

(** *** Decoding *)

Section EntryProperties.
Context `{SW : swid} `{EA : eat}.
Context (cbor_fields : unmarshalers) (json_fields : unmarshalers).

(** C9: decoding runs no validation.  The bytes [A1 01 80] (binary) and the
    text [{"tags":[]}] are well formed and encode an empty tag list: for
    every state of the destination, [FromCBOR] and [FromJSON] read them with
    a nil error and leave the destination with an empty tag list and its
    other fields as they were, and on that container [Valid] returns an
    error, "empty id" or "no tags". *)
Theorem decode_performs_no_validation (m : UnsignedCorim) :
  FromCBOR cbor_fields container empty_tags_cbor m =
  Returns None
    (mkUnsignedCorim _ _ (ID m) [] (DependentRims m) (Profiles m)) /\
  FromJSON json_fields container empty_tags_json m =
  Returns None
    (mkUnsignedCorim _ _ (ID m) [] (DependentRims m) (Profiles m)) /\
  Valid (mkUnsignedCorim _ _ (ID m) [] (DependentRims m) (Profiles m)) =
  Some (if TagID_eq_dec (ID m) TagID_zero
        then errors_New "empty id"
        else errors_New "tags validation failed: no tags").
Proof.
  split; [reflexivity|]. split; [reflexivity|].
  unfold Valid, fmt_Errorf. cbn [ID Tags length Nat.eqb].
  destruct (TagID_eq_dec (ID m) TagID_zero); reflexivity.
Qed.

End EntryProperties.

(** *** The reference collaborators *)

(** The reference container is what the builder chain makes of an empty
    one. *)
Example Ref_corim_built :
  (o1 <- SetID container (of_string "id") ;; AddComid o1 Ref.a_comid)%go
    NewUnsignedCorim
  = Returns container Ref.corim.
Proof. reflexivity. Qed.

Example Error_message :
  Error (Errorf_d_w "dependent RIM validation failed at pos %d: %w" 12
           (Errorf_w "invalid locator thumbprint: %w"
              (errors_New "unknown hash algorithm")))
  = "dependent RIM validation failed at pos 12: invalid locator thumbprint: unknown hash algorithm".
Proof. reflexivity. Qed.

(** *** The claims on the reference collaborators *)

(** C1, as the claim states it, fails for the CoSWID kind: the document
    [Ref.rejected_coswid] fails the validator of its format, and
    [AddCoswid] reports success and the tag list grows by one. *)
Lemma AddCoswid_accepts_rejected_document :
  Ref.SoftwareIdentity_Valid Ref.rejected_coswid
  = Some (errors_New "software-name is empty") /\
  exists m',
    AddCoswid container Ref.rejected_coswid Ref.corim = Returns container m' /\
    length (Tags m') = S (length (Tags Ref.corim)) /\
    m' <> Ref.corim.
Proof.
  split; [reflexivity|].
  exists (Ref.a_corim (Ref.tag_name "id")
            [Ref.hex "d901faa1a0"; Ref.hex "d901f9a26677"] None None).
  split; [reflexivity|]. split; [reflexivity|]. discriminate.
Qed.

(** C1 (amended) on the reference documents: a CoMID whose validator fails
    is refused and nothing changes; the CoSWID is appended unvalidated. *)
Lemma AddComid_validates_AddCoswid_does_not_witness :
  AddComid container (Ref.mkComid "" (Ref.hex "a0")) Ref.corim
  = Returns nil_ptr Ref.corim /\
  AddCoswid container Ref.rejected_coswid Ref.corim
  = Returns container
      (Ref.a_corim (Ref.tag_name "id")
         [Ref.hex "d901faa1a0"; Ref.hex "d901f9a26677"] None None).
Proof.
  destruct (AddComid_validates_AddCoswid_does_not Ref.corim) as (H1 & _ & _ & H4).
  split.
  - exact (H1 container (Ref.mkComid "" (Ref.hex "a0")) _ eq_refl).
  - exact (H4 Ref.rejected_coswid _ eq_refl).
Defined.

(** C2 on the reference documents. *)
Lemma tag_is_prefix_then_document_witness :
  AddComid container Ref.a_comid Ref.untagged
  = Returns container
      (Ref.a_corim (Ref.tag_name "id") [Ref.hex "d901faa1a0"] None None) /\
  AddCoswid container (Ref.mkSoftwareIdentity "a" "b") Ref.untagged
  = Returns container
      (Ref.a_corim (Ref.tag_name "id") [Ref.hex "d901f9a26162"] None None).
Proof.
  destruct (tag_is_prefix_then_document Ref.untagged) as (H1 & H2 & _).
  split.
  - exact (H1 Ref.a_comid _ eq_refl eq_refl).
  - exact (H2 (Ref.mkSoftwareIdentity "a" "b") _ eq_refl).
Defined.

(** C4 on a reference container: the empty Tag at index 1 of three. *)
Lemma Valid_reports_first_empty_tag_witness :
  Valid (Ref.a_corim (Ref.tag_name "id")
           [Ref.hex "d901faa1a0"; []; Ref.hex "01"]
           (Some [mkLocator "" None]) None)
  = Some (Errorf_d_w "tag validation failed at pos %d: %w" 1
            (errors_New "empty tag")).
Proof.
  apply (Valid_reports_first_empty_tag (SW := Ref.swid_ref) (EA := Ref.eat_ref)
           (Ref.tag_name "id")
           [Ref.hex "d901faa1a0"] [Ref.hex "01"] (Some [mkLocator "" None]) None).
  - discriminate.
  - repeat constructor. discriminate.
Defined.

(** C6 on the reference collaborators: the empty id and a string that is no
    profile are refused, the container staying as it was. *)
Lemma failed_builder_leaves_container_witness :
  SetID container (of_string "") Ref.corim = Returns nil_ptr Ref.corim /\
  AddProfile container "not-a-uri-not-an-oid" Ref.corim = Returns nil_ptr Ref.corim.
Proof.
  destruct (failed_builder_leaves_container container Ref.corim Ref.corim)
    as (_ & _ & _ & _ & H5).
  split; [exact (H5 (of_string "") eq_refl)|reflexivity].
Defined.

(** C7, as the claim states it, fails on a container that already holds a
    dependent RIM: the empty href is then reported at position 1. *)
Lemma empty_href_reported_after_earlier_locators :
  Valid Ref.corim_with_rim = None /\
  exists m',
    AddDependentRim container "" None Ref.corim_with_rim = Returns container m' /\
    Valid m'
    = Some (Errorf_d_w "dependent RIM validation failed at pos %d: %w" 1
              (errors_New "empty href")) /\
    Valid m'
    <> Some (Errorf_d_w "dependent RIM validation failed at pos %d: %w" 0
               (errors_New "empty href")).
Proof.
  split; [reflexivity|].
  exists (Ref.a_corim (Ref.tag_name "id") [Ref.hex "d901faa1a0"]
            (Some [mkLocator "https://example.org/rim" None; mkLocator "" None])
            None).
  split; [reflexivity|]. split; [reflexivity|]. discriminate.
Qed.

(** C7 (amended) on the reference container, which holds no dependent RIM:
    the position is 0. *)
Lemma AddDependentRim_defers_validation_witness :
  AddDependentRim container "" None Ref.corim
  = Returns container
      (Ref.a_corim (Ref.tag_name "id") [Ref.hex "d901faa1a0"]
         (Some [mkLocator "" None]) None) /\
  Valid (Ref.a_corim (Ref.tag_name "id") [Ref.hex "d901faa1a0"]
           (Some [mkLocator "" None]) None)
  = Some (Errorf_d_w "dependent RIM validation failed at pos %d: %w" 0
            (errors_New "empty href")).
Proof.
  destruct (AddDependentRim_defers_validation Ref.corim "" None) as [H1 H2].
  split; [exact H1|exact (H2 eq_refl)].
Defined.

(** C8 on the reference parser: an OID and a URI are appended in order, a
    string that is neither is refused. *)
Lemma AddProfile_parses_then_appends_witness :
  (o1 <- AddProfile container "2.16.840.1.101.3.4" ;;
   AddProfile o1 "https://example.org/profile")%go Ref.corim
  = Returns container
      (Ref.a_corim (Ref.tag_name "id") [Ref.hex "d901faa1a0"] None
         (Some [Ref.profile_oid "2.16.840.1.101.3.4";
                Ref.profile_uri "https://example.org/profile"])) /\
  AddProfile container "not-a-uri-not-an-oid" Ref.corim = Returns nil_ptr Ref.corim.
Proof.
  split.
  - unfold bind.
    rewrite (proj2 (AddProfile_parses_then_appends "2.16.840.1.101.3.4" Ref.corim)
               (Ref.profile_oid "2.16.840.1.101.3.4") eq_refl).
    reflexivity.
  - exact (proj1 (AddProfile_parses_then_appends "not-a-uri-not-an-oid" Ref.corim)
             _ eq_refl).
Defined.

(** C9 on the reference collaborators: the reference container loses its
    tags, and the encodings of a container with an id and no tag are read
    into an empty container, which then fails validation with "no tags". *)
Lemma decode_performs_no_validation_witness :
  FromCBOR Ref.fields container empty_tags_cbor Ref.corim
  = Returns None Ref.untagged /\
  FromJSON Ref.fields container empty_tags_json Ref.corim
  = Returns None Ref.untagged /\
  FromCBOR Ref.fields container Ref.untagged_cbor NewUnsignedCorim
  = Returns None Ref.untagged /\
  FromJSON Ref.fields container Ref.untagged_json NewUnsignedCorim
  = Returns None Ref.untagged /\
  Valid Ref.untagged = Some (errors_New "tags validation failed: no tags").
Proof.
  destruct (decode_performs_no_validation Ref.fields Ref.fields Ref.corim)
    as (HC & HJ & HV).
  split; [exact HC|]. split; [exact HJ|].
  split; [reflexivity|]. split; [reflexivity|exact HV].
Defined.

(** C10 on the reference collaborators: the chain whose [SetID] fails. *)
Lemma nil_receiver_is_no_op_witness :
  (o1 <- SetID container (of_string "") ;;
   o2 <- AddComid o1 Ref.a_comid ;;
   o3 <- AddCoswid o2 Ref.rejected_coswid ;;
   o4 <- AddDependentRim o3 "https://example.org/rim" None ;;
   AddProfile o4 "https://example.org/profile")%go NewUnsignedCorim
  = Returns nil_ptr NewUnsignedCorim.
Proof.
  destruct (nil_receiver_is_no_op NewUnsignedCorim) as (_ & _ & _ & _ & _ & H).
  exact (H (of_string "") Ref.a_comid Ref.rejected_coswid
           "https://example.org/rim" None "https://example.org/profile" eq_refl).
Defined.

(** ** Further properties of the container *)

Section CorimFurtherProperties.
Context `{SW : swid} `{CO : comid} `{EA : eat}.

Lemma Tag_Valid_passes (t : Tag) : Tag_Valid t = None <-> t <> [].
Proof.
  unfold Tag_Valid. destruct t; simpl; split; congruence.
Qed.

Lemma Locator_Valid_passes (l : Locator) :
  Locator_Valid l = None <->
  Href l <> "" /\
  (forall tp, Thumbprint l = Some tp ->
              ValidHashEntry (HashAlgID tp) (HashValue tp) = None).
Proof.
  unfold Locator_Valid. destruct l as [href thumbprint]. cbn [Href Thumbprint].
  destruct href as [|c href]; cbn [TaggedURI_Empty].
  - split; [discriminate|]. intros [H _]. contradiction.
  - destruct thumbprint as [tp|].
    + destruct (ValidHashEntry (HashAlgID tp) (HashValue tp)) eqn:Hh.
      * split; [discriminate|]. intros [_ H].
        specialize (H tp eq_refl). congruence.
      * split; [|reflexivity]. intros _. split; [discriminate|].
        intros tp' [= <-]. exact Hh.
    + split; [|reflexivity]. intros _. split; [discriminate|]. discriminate.
Qed.

Lemma ValidProfile_passes (p : Profile) :
  ValidProfile p = None <-> IsOID p = true \/ IsURI p = true.
Proof.
  unfold ValidProfile. destruct (IsOID p), (IsURI p); simpl;
    split; auto; try discriminate; intros [H|H]; discriminate.
Qed.

(** X1: what the validator accepts.  [Valid] returns nil exactly when the
    id is not the zero TagID, the tag list is not empty and holds no empty
    Tag, every Locator of the dependent-RIM list (when present) has a
    non-empty href and a thumbprint (when present) that passes
    [swid.ValidHashEntry], and every Profile of the profile list (when
    present) is an OID or a URI. *)
Theorem Valid_accepts_exactly (o : UnsignedCorim) :
  Valid o = None <->
  ID o <> TagID_zero /\
  Tags o <> [] /\
  (forall t, In t (Tags o) -> t <> []) /\
  (forall l, In l (elements (DependentRims o)) ->
     Href l <> "" /\
     (forall tp, Thumbprint l = Some tp ->
                 ValidHashEntry (HashAlgID tp) (HashValue tp) = None)) /\
  (forall p, In p (elements (Profiles o)) -> IsOID p = true \/ IsURI p = true).
Proof.
  rewrite Valid_passes, !Forall_forall.
  split; intros (H1 & H2 & H3 & H4 & H5); repeat split; auto.
  - intros t Ht. now apply Tag_Valid_passes, H3.
  - now apply Locator_Valid_passes, H4.
  - now apply Locator_Valid_passes, H4.
  - intros p Hp. now apply ValidProfile_passes, H5.
  - intros t Ht. now apply Tag_Valid_passes, H3.
  - intros l Hl. now apply Locator_Valid_passes, H4.
  - intros p Hp. now apply ValidProfile_passes, H5.
Qed.

Lemma range_failure {A} (valid : A -> option error) format (l : list A) k e :
  range valid format k l = Some e ->
  exists i x err,
    e = Errorf_d_w format (k + i) err /\
    nth_error l i = Some x /\
    valid x = Some err /\
    Forall (fun y => valid y = None) (firstn i l).
Proof.
  revert k. induction l as [|y l IH]; intros k; simpl; [discriminate|].
  destruct (valid y) as [err|] eqn:Hy.
  - intros [= <-]. exists 0, y, err. rewrite Nat.add_0_r. repeat split; auto.
  - intros H. destruct (IH _ H) as (i & x & err & He & Hn & Hx & Hpre).
    exists (S i), x, err. rewrite <- Nat.add_succ_comm.
    repeat split; auto. simpl. now constructor.
Qed.

(** X2: every error of the validator is one of five, and a position it
    reports is in bounds: the error names the first element of its list
    that fails, every element before it passing.  So [Valid] returns
    "empty id" only on the zero id, "no tags" only on an empty tag list,
    and a tag, dependent-RIM or profile error at [i] only when the element
    at index [i] is the first invalid one. *)
Theorem Valid_error_is_located (o : UnsignedCorim) (e : error) :
  Valid o = Some e ->
  (e = errors_New "empty id" /\ ID o = TagID_zero) \/
  (e = errors_New "tags validation failed: no tags" /\ Tags o = []) \/
  (exists i t err,
     e = Errorf_d_w "tag validation failed at pos %d: %w" i err /\
     nth_error (Tags o) i = Some t /\ Tag_Valid t = Some err /\
     Forall (fun y => Tag_Valid y = None) (firstn i (Tags o))) \/
  (exists i l err,
     e = Errorf_d_w "dependent RIM validation failed at pos %d: %w" i err /\
     nth_error (elements (DependentRims o)) i = Some l /\
     Locator_Valid l = Some err /\
     Forall (fun y => Locator_Valid y = None)
       (firstn i (elements (DependentRims o)))) \/
  (exists i p err,
     e = Errorf_d_w "profile validation failed at pos %d: %w" i err /\
     nth_error (elements (Profiles o)) i = Some p /\
     ValidProfile p = Some err /\
     Forall (fun y => ValidProfile y = None) (firstn i (elements (Profiles o)))).
Proof.
  rewrite Valid_by_category.
  unfold category1, category2, category3, category4, category5.
  cbn [first_failure].
  destruct (TagID_eq_dec (ID o) TagID_zero) as [Hid|Hid].
  { intros [= <-]. left. auto. }
  destruct (Tags o) as [|t tags] eqn:Htags.
  { intros [= <-]. right; left. auto. }
  destruct (range Tag_Valid _ 0 (t :: tags)) eqn:H3.
  { intros [= <-]. right; right; left.
    apply range_failure in H3. exact H3. }
  destruct (DependentRims o) as [rims|]; cbn [elements].
  - destruct (range Locator_Valid _ 0 rims) eqn:H4.
    { intros [= <-]. right; right; right; left.
      apply range_failure in H4. exact H4. }
    destruct (Profiles o) as [ps|]; cbn [elements]; [|discriminate].
    destruct (range ValidProfile _ 0 ps) eqn:H5; [|discriminate].
    intros [= <-]. right; right; right; right.
    apply range_failure in H5. exact H5.
  - destruct (Profiles o) as [ps|]; cbn [elements]; [|discriminate].
    destruct (range ValidProfile _ 0 ps) eqn:H5; [|discriminate].
    intros [= <-]. right; right; right; right.
    apply range_failure in H5. exact H5.
Qed.

(** X3: with the id set and every tag in order, the first Locator that
    fails is reported in category 4 at its index with its own cause; the
    locators after it and the profile list have no part in the result. *)
Theorem Valid_reports_first_invalid_locator
    (id : TagID) (tags : list Tag) (pre post : list Locator) (bad : Locator)
    (err : error) (ps : option (list Profile)) :
  id <> TagID_zero ->
  tags <> [] ->
  Forall (fun t : Tag => t <> []) tags ->
  Forall (fun l => Locator_Valid l = None) pre ->
  Locator_Valid bad = Some err ->
  Valid (mkUnsignedCorim _ _ id tags (Some (pre ++ bad :: post)) ps) =
  Some (Errorf_d_w "dependent RIM validation failed at pos %d: %w"
          (length pre) err).
Proof.
  intros Hid Hne Htags Hpre Hbad. unfold Valid.
  cbn [ID Tags DependentRims Profiles].
  destruct (TagID_eq_dec id TagID_zero) as [|_]; [contradiction|].
  destruct tags as [|t tags]; [contradiction|]. cbn [length Nat.eqb].
  rewrite (proj2 (range_passes Tag_Valid _ (t :: tags) 0)).
  - now rewrite (range_first_failure Locator_Valid _ pre bad post 0 err Hpre Hbad).
  - eapply Forall_impl; [|exact Htags]. intros x Hx. now apply Tag_Valid_passes.
Qed.

(** X4: with the id, the tags and the dependent RIMs in order, the first
    Profile that is neither an OID nor a URI is reported in category 5 at
    its index; the profiles after it have no part in the result. *)
Theorem Valid_reports_first_invalid_profile
    (id : TagID) (tags : list Tag) (rims : option (list Locator))
    (pre post : list Profile) (bad : Profile) :
  id <> TagID_zero ->
  tags <> [] ->
  Forall (fun t : Tag => t <> []) tags ->
  Forall (fun l => Locator_Valid l = None) (elements rims) ->
  Forall (fun p => IsOID p = true \/ IsURI p = true) pre ->
  IsOID bad = false ->
  IsURI bad = false ->
  Valid (mkUnsignedCorim _ _ id tags rims (Some (pre ++ bad :: post))) =
  Some (Errorf_d_w "profile validation failed at pos %d: %w" (length pre)
          (errors_New "profile should be OID or URI")).
Proof.
  intros Hid Hne Htags Hrims Hpre Hoid Huri. unfold Valid.
  cbn [ID Tags DependentRims Profiles].
  destruct (TagID_eq_dec id TagID_zero) as [|_]; [contradiction|].
  destruct tags as [|t tags]; [contradiction|]. cbn [length Nat.eqb].
  rewrite (proj2 (range_passes Tag_Valid _ (t :: tags) 0)).
  2:{ eapply Forall_impl; [|exact Htags]. intros x Hx. now apply Tag_Valid_passes. }
  assert (H4 : match rims with
               | Some l =>
                   range Locator_Valid
                     "dependent RIM validation failed at pos %d: %w" 0 l
               | None => None
               end = None).
  { destruct rims as [l|]; [|reflexivity]. now apply range_passes. }
  rewrite H4.
  rewrite (range_first_failure ValidProfile _ pre bad post 0
             (errors_New "profile should be OID or URI")).
  - reflexivity.
  - eapply Forall_impl; [|exact Hpre]. intros p Hp. now apply ValidProfile_passes.
  - unfold ValidProfile. now rewrite Hoid, Huri.
Qed.

(** X5: a Locator fails for one of two causes only, and the href is looked
    at first: an empty href gives "empty href" whatever the thumbprint is;
    otherwise the error wraps, as "invalid locator thumbprint", the error
    that [swid.ValidHashEntry] returned for the thumbprint's algorithm and
    value. *)
Theorem Locator_Valid_causes (l : Locator) (e : error) :
  Locator_Valid l = Some e ->
  (Href l = "" /\ e = errors_New "empty href") \/
  (Href l <> "" /\
   exists tp err,
     Thumbprint l = Some tp /\
     ValidHashEntry (HashAlgID tp) (HashValue tp) = Some err /\
     e = Errorf_w "invalid locator thumbprint: %w" err).
Proof.
  unfold Locator_Valid. destruct l as [href thumbprint]. cbn [Href Thumbprint].
  destruct href as [|c href]; cbn [TaggedURI_Empty].
  - intros [= <-]. left. auto.
  - destruct thumbprint as [tp|]; [|discriminate].
    destruct (ValidHashEntry (HashAlgID tp) (HashValue tp)) as [err|] eqn:Hh;
      [|discriminate].
    intros [= <-]. right. split; [discriminate|].
    exists tp, err. auto.
Qed.

(** *** Builder operations *)

(** X6: no builder operation panics, on a nil receiver or on a container in
    any state, and each returns either its receiver or nil.  In
    [AddDependentRim] and [AddProfile] the list pointer is dereferenced only
    after it has been made non-nil. *)
Theorem builders_return_receiver_or_nil (o : ptr) (m : UnsignedCorim) :
  (forall v, exists r m',
      SetID o v m = Returns r m' /\ (r = o \/ r = nil_ptr)) /\
  (forall c, exists r m',
      AddComid o c m = Returns r m' /\ (r = o \/ r = nil_ptr)) /\
  (forall c, exists r m',
      AddCoswid o c m = Returns r m' /\ (r = o \/ r = nil_ptr)) /\
  (forall href thumbprint, exists m',
      AddDependentRim o href thumbprint m = Returns o m') /\
  (forall urlOrOID, exists r m',
      AddProfile o urlOrOID m = Returns r m' /\ (r = o \/ r = nil_ptr)).
Proof.
  destruct o.
  { repeat split; intros; eexists; try eexists; try split;
      try reflexivity; auto. }
  repeat split.
  - intros v. rewrite SetID_run. destruct (NewTagID v); eauto.
  - intros c. rewrite AddComid_run.
    destruct (Comid_Valid c); [eauto|]. destruct (Comid_ToCBOR c); eauto.
  - intros c. rewrite AddCoswid_run.
    destruct (SoftwareIdentity_ToCBOR c); eauto.
  - intros href thumbprint. rewrite AddDependentRim_run. eauto.
  - intros s. rewrite AddProfile_run. destruct (NewProfile s); eauto.
Qed.

(** X7: a builder operation that succeeds writes one field and leaves the
    three others as they were: [SetID] the id, [AddComid] and [AddCoswid]
    the tags, [AddDependentRim] the dependent RIMs, [AddProfile] the
    profiles. *)
Theorem builders_write_one_field (m m' : UnsignedCorim) :
  (forall v, SetID container v m = Returns container m' ->
     Tags m' = Tags m /\ DependentRims m' = DependentRims m /\
     Profiles m' = Profiles m) /\
  (forall c, AddComid container c m = Returns container m' ->
     ID m' = ID m /\ DependentRims m' = DependentRims m /\
     Profiles m' = Profiles m) /\
  (forall c, AddCoswid container c m = Returns container m' ->
     ID m' = ID m /\ DependentRims m' = DependentRims m /\
     Profiles m' = Profiles m) /\
  (forall href thumbprint,
     AddDependentRim container href thumbprint m = Returns container m' ->
     ID m' = ID m /\ Tags m' = Tags m /\ Profiles m' = Profiles m) /\
  (forall urlOrOID, AddProfile container urlOrOID m = Returns container m' ->
     ID m' = ID m /\ Tags m' = Tags m /\ DependentRims m' = DependentRims m).
Proof.
  repeat apply conj.
  - intros v. rewrite SetID_run. destruct (NewTagID v); [|discriminate].
    intros [= <-]. auto.
  - intros c. rewrite AddComid_run.
    destruct (Comid_Valid c); [discriminate|].
    destruct (Comid_ToCBOR c); [|discriminate]. intros [= <-]. auto.
  - intros c. rewrite AddCoswid_run.
    destruct (SoftwareIdentity_ToCBOR c); [|discriminate]. intros [= <-]. auto.
  - intros href thumbprint. rewrite AddDependentRim_run. intros [= <-]. auto.
  - intros s. rewrite AddProfile_run.
    destruct (NewProfile s); [|discriminate]. intros [= <-]. auto.
Qed.

Lemma category3_app_valid (id id' : TagID) (tags : list Tag) (t : Tag)
      (rims rims' : option (list Locator)) (ps ps' : option (list Profile)) :
  t <> [] ->
  category3 (mkUnsignedCorim _ _ id (tags ++ [t]) rims ps) =
  category3 (mkUnsignedCorim _ _ id' tags rims' ps').
Proof.
  intros Ht. unfold category3. cbn [Tags]. rewrite range_app.
  destruct (range Tag_Valid _ 0 tags); [reflexivity|].
  cbn [range]. now rewrite (proj2 (Tag_Valid_passes t) Ht).
Qed.

(** X8: the Tag that [AddComid] or [AddCoswid] appends is never empty, so
    after a successful call the validator can no longer answer "no tags" and
    finds in the tag list only the defects that were there before: its
    result is that of the categories 1, 3, 4 and 5 on the container before
    the call. *)
Theorem Valid_after_added_tag (m m' : UnsignedCorim) :
  (forall c, AddComid container c m = Returns container m' ->
     length (Tags m') = S (length (Tags m)) /\
     Valid m' =
     first_failure [category1 m; category3 m; category4 m; category5 m]) /\
  (forall c, AddCoswid container c m = Returns container m' ->
     length (Tags m') = S (length (Tags m)) /\
     Valid m' =
     first_failure [category1 m; category3 m; category4 m; category5 m]).
Proof.
  assert (Hgen : forall t, t <> [] ->
            Valid (mkUnsignedCorim _ _ (ID m) (Tags m ++ [t])
                     (DependentRims m) (Profiles m)) =
            first_failure [category1 m; category3 m; category4 m; category5 m]).
  { intros t Ht. rewrite Valid_by_category.
    rewrite (category3_app_valid _ (ID m) _ _ _ (DependentRims m) _ (Profiles m) Ht).
    destruct m as [id tags rims ps].
    unfold category1, category2, category4, category5.
    cbn [ID Tags DependentRims Profiles first_failure].
    destruct (TagID_eq_dec id TagID_zero); [reflexivity|].
    destruct (tags ++ [t]) eqn:Happ; [|reflexivity].
    apply app_eq_nil in Happ. destruct Happ as [_ Happ]. discriminate. }
  split; intros c.
  - rewrite AddComid_run. destruct (Comid_Valid c); [discriminate|].
    destruct (Comid_ToCBOR c) as [doc|]; [|discriminate]. intros [= <-].
    cbn [Tags]. split; [rewrite length_app; simpl; lia|].
    apply Hgen. discriminate.
  - rewrite AddCoswid_run.
    destruct (SoftwareIdentity_ToCBOR c) as [doc|]; [|discriminate].
    intros [= <-].
    cbn [Tags]. split; [rewrite length_app; simpl; lia|].
    apply Hgen. discriminate.
Qed.

(** X9: building from scratch.  On an empty container, [SetID] with a value
    that normalizes to a non-zero id followed by [AddComid] of a valid
    CoMID that serializes (or [AddCoswid] of a CoSWID that serializes)
    gives a container that the validator accepts, holding that id and the
    one tagged document. *)
Theorem built_container_is_valid (v : interface) (id : TagID) :
  NewTagID v = Some id ->
  id <> TagID_zero ->
  (forall c doc, Comid_Valid c = None -> Comid_ToCBOR c = inl doc ->
     (o1 <- SetID container v ;; AddComid o1 c)%go NewUnsignedCorim =
     Returns container (mkUnsignedCorim _ _ id [comidTag ++ doc] None None) /\
     Valid (mkUnsignedCorim _ _ id [comidTag ++ doc] None None) = None) /\
  (forall c doc, SoftwareIdentity_ToCBOR c = inl doc ->
     (o1 <- SetID container v ;; AddCoswid o1 c)%go NewUnsignedCorim =
     Returns container (mkUnsignedCorim _ _ id [coswidTag ++ doc] None None) /\
     Valid (mkUnsignedCorim _ _ id [coswidTag ++ doc] None None) = None).
Proof.
  intros Hv Hid.
  assert (HV : forall t : Tag, t <> [] ->
            Valid (mkUnsignedCorim _ _ id [t] None None) = None).
  { intros t Ht. apply Valid_passes.
    cbn [ID Tags DependentRims Profiles elements].
    repeat split; auto; try discriminate.
    constructor; [|constructor]. now apply Tag_Valid_passes. }
  split; intros c doc.
  - intros Hc Hd. split; [|apply HV; discriminate].
    unfold bind. rewrite SetID_run, Hv, AddComid_run, Hc, Hd. reflexivity.
  - intros Hd. split; [|apply HV; discriminate].
    unfold bind. rewrite SetID_run, Hv, AddCoswid_run, Hd. reflexivity.
Qed.

(** X10: an id alone is not enough.  After a successful [SetID] with a
    non-zero id on a container that holds no tag, the validator answers
    "no tags", whatever the dependent RIMs and profiles are. *)
Theorem Valid_after_SetID_alone (v : interface) (id : TagID) (m : UnsignedCorim) :
  NewTagID v = Some id ->
  id <> TagID_zero ->
  Tags m = [] ->
  exists m',
    SetID container v m = Returns container m' /\
    Valid m' = Some (errors_New "tags validation failed: no tags").
Proof.
  intros Hv Hid Htags. rewrite SetID_run, Hv. eexists. split; [reflexivity|].
  unfold Valid. cbn [ID Tags]. rewrite Htags.
  destruct (TagID_eq_dec id TagID_zero); [contradiction|reflexivity].
Qed.

(** X11: [GetID] reads what [SetID] wrote, and a later [SetID] replaces an
    earlier one: after a successful [SetID] the printed id is that of the
    normalized value, and two successful calls in a row leave the container
    as the second call alone would. *)
Theorem SetID_then_GetID (m : UnsignedCorim) :
  (forall v id, NewTagID v = Some id ->
     exists m', SetID container v m = Returns container m' /\
                ID m' = id /\ GetID m' = TagID_String id) /\
  (forall v1 v2 id1 id2, NewTagID v1 = Some id1 -> NewTagID v2 = Some id2 ->
     (o1 <- SetID container v1 ;; SetID o1 v2)%go m = SetID container v2 m).
Proof.
  split.
  - intros v id Hv. rewrite SetID_run, Hv. eexists. split; [reflexivity|].
    split; reflexivity.
  - intros v1 v2 id1 id2 H1 H2. unfold bind.
    rewrite !SetID_run, H1, SetID_run, H2. reflexivity.
Qed.

(** X12: a chain does not roll back.  When a later step of a chain fails,
    the chain returns nil, and the container keeps what the steps before the
    failure wrote: the id of a [SetID], the Tag of an [AddComid], the
    Locator of an [AddDependentRim]. *)
Theorem failed_chain_keeps_earlier_steps (m : UnsignedCorim) (s : string) (err : error) :
  NewProfile s = inr err ->
  (forall v id, NewTagID v = Some id ->
     (o1 <- SetID container v ;; AddProfile o1 s)%go m =
     Returns nil_ptr
       (mkUnsignedCorim _ _ id (Tags m) (DependentRims m) (Profiles m))) /\
  (forall c doc, Comid_Valid c = None -> Comid_ToCBOR c = inl doc ->
     (o1 <- AddComid container c ;; AddProfile o1 s)%go m =
     Returns nil_ptr
       (mkUnsignedCorim _ _ (ID m) (Tags m ++ [comidTag ++ doc])
          (DependentRims m) (Profiles m))) /\
  (forall href thumbprint,
     (o1 <- AddDependentRim container href thumbprint ;; AddProfile o1 s)%go m =
     Returns nil_ptr
       (mkUnsignedCorim _ _ (ID m) (Tags m)
          (Some (elements (DependentRims m) ++ [mkLocator href thumbprint]))
          (Profiles m))).
Proof.
  intros Hs. repeat apply conj.
  - intros v id Hv. unfold bind.
    rewrite SetID_run, Hv, AddProfile_run, Hs. reflexivity.
  - intros c doc Hc Hd. unfold bind.
    rewrite AddComid_run, Hc, Hd, AddProfile_run, Hs. reflexivity.
  - intros href thumbprint. unfold bind.
    rewrite AddDependentRim_run, AddProfile_run, Hs. reflexivity.
Qed.

(** X13: insertion order.  Two successful additions in a row put their two
    elements at the end of the list in the order of the calls: Tags for
    [AddComid] then [AddCoswid], Locators for two [AddDependentRim],
    Profiles for two [AddProfile]. *)
Theorem additions_keep_call_order (m : UnsignedCorim) :
  (forall c1 c2 d1 d2,
     Comid_Valid c1 = None -> Comid_ToCBOR c1 = inl d1 ->
     SoftwareIdentity_ToCBOR c2 = inl d2 ->
     (o1 <- AddComid container c1 ;; AddCoswid o1 c2)%go m =
     Returns container
       (mkUnsignedCorim _ _ (ID m)
          (Tags m ++ [comidTag ++ d1; coswidTag ++ d2])
          (DependentRims m) (Profiles m))) /\
  (forall h1 t1 h2 t2,
     (o1 <- AddDependentRim container h1 t1 ;; AddDependentRim o1 h2 t2)%go m =
     Returns container
       (mkUnsignedCorim _ _ (ID m) (Tags m)
          (Some (elements (DependentRims m) ++ [mkLocator h1 t1; mkLocator h2 t2]))
          (Profiles m))) /\
  (forall s1 s2 p1 p2,
     NewProfile s1 = inl p1 -> NewProfile s2 = inl p2 ->
     (o1 <- AddProfile container s1 ;; AddProfile o1 s2)%go m =
     Returns container
       (mkUnsignedCorim _ _ (ID m) (Tags m) (DependentRims m)
          (Some (elements (Profiles m) ++ [p1; p2])))).
Proof.
  repeat apply conj.
  - intros c1 c2 d1 d2 Hc Hd1 Hd2. unfold bind.
    rewrite AddComid_run, Hc, Hd1, AddCoswid_run, Hd2.
    cbn [ID Tags DependentRims Profiles]. now rewrite <- app_assoc.
  - intros h1 t1 h2 t2. unfold bind.
    rewrite !AddDependentRim_run.
    cbn [ID Tags DependentRims Profiles elements]. now rewrite <- app_assoc.
  - intros s1 s2 p1 p2 H1 H2. unfold bind.
    rewrite AddProfile_run, H1, AddProfile_run, H2.
    cbn [ID Tags DependentRims Profiles elements]. now rewrite <- app_assoc.
Qed.

(** X14: successful builder operations on different fields commute: the
    container ends the same whichever of the two is called first, for
    [AddComid] and [AddDependentRim], for [AddDependentRim] and
    [AddProfile], and for [SetID] and [AddCoswid]. *)
Theorem builders_on_different_fields_commute (m : UnsignedCorim) :
  (forall c doc href thumbprint,
     Comid_Valid c = None -> Comid_ToCBOR c = inl doc ->
     (o1 <- AddComid container c ;; AddDependentRim o1 href thumbprint)%go m =
     (o1 <- AddDependentRim container href thumbprint ;; AddComid o1 c)%go m) /\
  (forall href thumbprint s p,
     NewProfile s = inl p ->
     (o1 <- AddDependentRim container href thumbprint ;; AddProfile o1 s)%go m =
     (o1 <- AddProfile container s ;; AddDependentRim o1 href thumbprint)%go m) /\
  (forall v id c doc,
     NewTagID v = Some id -> SoftwareIdentity_ToCBOR c = inl doc ->
     (o1 <- SetID container v ;; AddCoswid o1 c)%go m =
     (o1 <- AddCoswid container c ;; SetID o1 v)%go m).
Proof.
  repeat apply conj.
  - intros c doc href thumbprint Hc Hd. unfold bind.
    rewrite AddComid_run, Hc, Hd, !AddDependentRim_run, AddComid_run, Hc, Hd.
    reflexivity.
  - intros href thumbprint s p Hs. unfold bind.
    rewrite AddDependentRim_run, AddProfile_run, Hs, AddProfile_run, Hs,
      AddDependentRim_run.
    reflexivity.
  - intros v id c doc Hv Hd. unfold bind.
    rewrite SetID_run, Hv, AddCoswid_run, Hd, AddCoswid_run, Hd, SetID_run, Hv.
    reflexivity.
Qed.

(** X15: on a container that the validator accepts, [AddDependentRim] keeps
    it acceptable exactly when the Locator it adds is itself in order (a
    non-empty href and, if a thumbprint is given, one that passes
    [swid.ValidHashEntry]). *)
Theorem Valid_after_AddDependentRim
    (m : UnsignedCorim) (href : string) (thumbprint : option HashEntry) :
  Valid m = None ->
  exists m',
    AddDependentRim container href thumbprint m = Returns container m' /\
    (Valid m' = None <->
     href <> "" /\
     (forall tp, thumbprint = Some tp ->
                 ValidHashEntry (HashAlgID tp) (HashValue tp) = None)).
Proof.
  intros Hm. rewrite AddDependentRim_run. eexists. split; [reflexivity|].
  apply Valid_passes in Hm. destruct Hm as (H1 & H2 & H3 & H4 & H5).
  rewrite Valid_passes. cbn [ID Tags DependentRims Profiles elements].
  rewrite Forall_app.
  rewrite <- (Locator_Valid_passes (mkLocator href thumbprint)).
  split.
  - intros (_ & _ & _ & [_ Hl] & _). now inversion Hl.
  - intros Hl. repeat split; auto.
Qed.

(** X16: on a container that the validator accepts, [AddProfile] of a
    string that parses keeps it acceptable exactly when the parsed Profile
    is an OID or a URI. *)
Theorem Valid_after_AddProfile (m : UnsignedCorim) (s : string) (p : Profile) :
  Valid m = None ->
  NewProfile s = inl p ->
  exists m',
    AddProfile container s m = Returns container m' /\
    (Valid m' = None <-> IsOID p = true \/ IsURI p = true).
Proof.
  intros Hm Hs. rewrite AddProfile_run, Hs. eexists. split; [reflexivity|].
  apply Valid_passes in Hm. destruct Hm as (H1 & H2 & H3 & H4 & H5).
  rewrite Valid_passes. cbn [ID Tags DependentRims Profiles elements].
  rewrite Forall_app, <- ValidProfile_passes.
  split.
  - intros (_ & _ & _ & _ & [_ Hp]). now inversion Hp.
  - intros Hp. repeat split; auto.
Qed.

(** X17: the builders never leave a list that is present and empty.  If
    neither optional list of the container is present-and-empty before a
    builder operation, neither is after it, whether the operation succeeds
    or fails: a list is created only together with its first element. *)
Theorem builders_leave_no_empty_list (o r : ptr) (m m' : UnsignedCorim) :
  DependentRims m <> Some [] ->
  Profiles m <> Some [] ->
  (forall v, SetID o v m = Returns r m' ->
     DependentRims m' <> Some [] /\ Profiles m' <> Some []) /\
  (forall c, AddComid o c m = Returns r m' ->
     DependentRims m' <> Some [] /\ Profiles m' <> Some []) /\
  (forall c, AddCoswid o c m = Returns r m' ->
     DependentRims m' <> Some [] /\ Profiles m' <> Some []) /\
  (forall href thumbprint, AddDependentRim o href thumbprint m = Returns r m' ->
     DependentRims m' <> Some [] /\ Profiles m' <> Some []) /\
  (forall urlOrOID, AddProfile o urlOrOID m = Returns r m' ->
     DependentRims m' <> Some [] /\ Profiles m' <> Some []).
Proof.
  intros Hr Hp.
  assert (Hsnoc : forall A (l : list A) x, Some (l ++ [x]) <> Some []).
  { intros A l x [= H]. apply app_eq_nil in H. destruct H. discriminate. }
  destruct o.
  { repeat apply conj; intros; match goal with
      | H : _ = Returns _ _ |- _ => injection H as _ <-; auto
      end. }
  repeat apply conj.
  - intros v. rewrite SetID_run. destruct (NewTagID v); intros [= _ <-]; auto.
  - intros c. rewrite AddComid_run. destruct (Comid_Valid c);
      [intros [= _ <-]; auto|].
    destruct (Comid_ToCBOR c); intros [= _ <-]; auto.
  - intros c. rewrite AddCoswid_run.
    destruct (SoftwareIdentity_ToCBOR c); intros [= _ <-]; auto.
  - intros href thumbprint. rewrite AddDependentRim_run. intros [= _ <-].
    cbn [DependentRims Profiles]. auto.
  - intros s. rewrite AddProfile_run.
    destruct (NewProfile s); intros [= _ <-]; cbn [DependentRims Profiles]; auto.
Qed.

End CorimFurtherProperties.

(** *** The further properties on the reference collaborators *)

(** X2 on a reference container whose Tag at index 1 is empty. *)
Lemma Valid_error_is_located_witness :
  exists i t err,
    Errorf_d_w "tag validation failed at pos %d: %w" 1 (errors_New "empty tag")
    = Errorf_d_w "tag validation failed at pos %d: %w" i err /\
    nth_error [Ref.hex "d901faa1a0"; []; Ref.hex "01"] i = Some t /\
    Tag_Valid t = Some err /\
    Forall (fun y => Tag_Valid y = None)
      (firstn i [Ref.hex "d901faa1a0"; []; Ref.hex "01"]).
Proof.
  destruct (Valid_error_is_located
              (Ref.a_corim (Ref.tag_name "id")
                 [Ref.hex "d901faa1a0"; []; Ref.hex "01"] None None)
              (Errorf_d_w "tag validation failed at pos %d: %w" 1
                 (errors_New "empty tag")) eq_refl)
    as [[H _]|[[H _]|[H|[H|H]]]].
  - discriminate H.
  - discriminate H.
  - exact H.
  - destruct H as (i & l & err & H & _). discriminate H.
  - destruct H as (i & p & err & H & _). discriminate H.
Defined.

(** X3 on a reference container: the Locator at index 1 carries a SHA-256
    thumbprint of one byte. *)
Lemma Valid_reports_first_invalid_locator_witness :
  Valid (Ref.a_corim (Ref.tag_name "id") [Ref.hex "d901faa1a0"]
           (Some [mkLocator "https://example.org/rim" None;
                  mkLocator "https://example.org/other"
                    (Some (mkHashEntry 1 (Ref.hex "00")));
                  mkLocator "" None])
           (Some [Ref.profile_neither]))
  = Some (Errorf_d_w "dependent RIM validation failed at pos %d: %w" 1
            (Errorf_w "invalid locator thumbprint: %w"
               (errors_New "length mismatch for hash algorithm"))).
Proof.
  apply (Valid_reports_first_invalid_locator (SW := Ref.swid_ref) (EA := Ref.eat_ref)
           (Ref.tag_name "id") [Ref.hex "d901faa1a0"]
           [mkLocator "https://example.org/rim" None] [mkLocator "" None]
           (mkLocator "https://example.org/other"
              (Some (mkHashEntry 1 (Ref.hex "00"))))).
  - discriminate.
  - discriminate.
  - repeat constructor. discriminate.
  - repeat constructor.
  - reflexivity.
Defined.

(** X4 on a reference container: the Profile at index 1 is neither form. *)
Lemma Valid_reports_first_invalid_profile_witness :
  Valid (Ref.a_corim (Ref.tag_name "id") [Ref.hex "d901faa1a0"]
           (Some [mkLocator "https://example.org/rim" None])
           (Some [Ref.profile_oid "2.16.840.1.101.3.4"; Ref.profile_neither;
                  Ref.profile_neither]))
  = Some (Errorf_d_w "profile validation failed at pos %d: %w" 1
            (errors_New "profile should be OID or URI")).
Proof.
  apply (Valid_reports_first_invalid_profile (SW := Ref.swid_ref) (EA := Ref.eat_ref)
           (Ref.tag_name "id") [Ref.hex "d901faa1a0"]
           (Some [mkLocator "https://example.org/rim" None])
           [Ref.profile_oid "2.16.840.1.101.3.4"] [Ref.profile_neither]
           Ref.profile_neither).
  - discriminate.
  - discriminate.
  - repeat constructor. discriminate.
  - repeat constructor.
  - repeat constructor.
  - reflexivity.
  - reflexivity.
Defined.

(** X5 on a reference Locator with an unknown hash algorithm. *)
Lemma Locator_Valid_causes_witness :
  exists tp err,
    Thumbprint (mkLocator "https://example.org/rim" (Some (mkHashEntry 99 [])))
    = Some tp /\
    Ref.ValidHashEntry (HashAlgID tp) (HashValue tp) = Some err /\
    Errorf_w "invalid locator thumbprint: %w" (errors_New "unknown hash algorithm")
    = Errorf_w "invalid locator thumbprint: %w" err.
Proof.
  destruct (Locator_Valid_causes (SW := Ref.swid_ref)
              (mkLocator "https://example.org/rim" (Some (mkHashEntry 99 [])))
              (Errorf_w "invalid locator thumbprint: %w"
                 (errors_New "unknown hash algorithm")) eq_refl)
    as [[_ H]|[_ H]].
  - discriminate H.
  - exact H.
Defined.

(** X9 on the reference collaborators. *)
Lemma built_container_is_valid_witness :
  (o1 <- SetID container (of_string "id") ;; AddComid o1 Ref.a_comid)%go
    NewUnsignedCorim
  = Returns container Ref.corim /\
  Valid Ref.corim = None.
Proof.
  assert (Hid : Ref.tag_name "id" <> Ref.tag_zero) by discriminate.
  exact (proj1 (built_container_is_valid (of_string "id") (Ref.tag_name "id")
                  eq_refl Hid)
           Ref.a_comid (Ref.hex "a1a0") eq_refl eq_refl).
Defined.

(** X10 on the reference collaborators. *)
Lemma Valid_after_SetID_alone_witness :
  exists m',
    SetID container (of_string "id") NewUnsignedCorim = Returns container m' /\
    Valid m' = Some (errors_New "tags validation failed: no tags").
Proof.
  assert (Hid : Ref.tag_name "id" <> Ref.tag_zero) by discriminate.
  exact (Valid_after_SetID_alone (of_string "id") (Ref.tag_name "id")
           NewUnsignedCorim eq_refl Hid eq_refl).
Defined.

(** X12 on the reference collaborators: the id stays after the failed
    [AddProfile]. *)
Lemma failed_chain_keeps_earlier_steps_witness :
  (o1 <- SetID container (of_string "id") ;;
   AddProfile o1 "not-a-uri-not-an-oid")%go NewUnsignedCorim
  = Returns nil_ptr (Ref.a_corim (Ref.tag_name "id") [] None None).
Proof.
  exact (proj1 (failed_chain_keeps_earlier_steps NewUnsignedCorim
                  "not-a-uri-not-an-oid"
                  (errors_New "profile is neither a URI nor an OID") eq_refl)
           (of_string "id") (Ref.tag_name "id") eq_refl).
Defined.

(** X15 on the reference container: a Locator with an href and no
    thumbprint keeps it valid. *)
Lemma Valid_after_AddDependentRim_witness :
  exists m',
    AddDependentRim container "https://example.org/rim" None Ref.corim
    = Returns container m' /\
    Valid m' = None.
Proof.
  destruct (Valid_after_AddDependentRim Ref.corim "https://example.org/rim" None
              eq_refl) as (m' & Hrun & Hvalid).
  exists m'. split; [exact Hrun|].
  apply Hvalid. split; discriminate.
Defined.

(** X16 on the reference container and parser: a URI keeps it valid. *)
Lemma Valid_after_AddProfile_witness :
  exists m',
    AddProfile container "https://example.org/profile" Ref.corim
    = Returns container m' /\
    Valid m' = None.
Proof.
  destruct (Valid_after_AddProfile Ref.corim "https://example.org/profile"
              (Ref.profile_uri "https://example.org/profile") eq_refl eq_refl)
    as (m' & Hrun & Hvalid).
  exists m'. split; [exact Hrun|].
  apply Hvalid. right. reflexivity.
Defined.

(** X17 on the reference container, for a failed and a successful call. *)
Lemma builders_leave_no_empty_list_witness :
  (forall m', AddProfile container "not-a-uri-not-an-oid" Ref.corim
              = Returns nil_ptr m' ->
              DependentRims m' <> Some [] /\ Profiles m' <> Some []) /\
  (forall m', AddDependentRim container "https://example.org/rim" None Ref.corim
              = Returns container m' ->
              DependentRims m' <> Some [] /\ Profiles m' <> Some []).
Proof.
  assert (H1 : DependentRims Ref.corim <> Some []) by discriminate.
  assert (H2 : Profiles Ref.corim <> Some []) by discriminate.
  split; intros m'.
  - exact (proj2 (proj2 (proj2 (proj2
             (builders_leave_no_empty_list container nil_ptr Ref.corim m' H1 H2))))
             "not-a-uri-not-an-oid").
  - exact (proj1 (proj2 (proj2 (proj2
             (builders_leave_no_empty_list container container Ref.corim m' H1 H2))))
             "https://example.org/rim" None).
Defined.

(** X1 on the reference container with a dependent RIM. *)
Lemma Valid_accepts_exactly_witness : Valid Ref.corim_with_rim = None.
Proof.
  apply (proj2 (Valid_accepts_exactly Ref.corim_with_rim)).
  split; [discriminate|]. split; [discriminate|].
  split; [|split].
  - intros t [<-|[]]. discriminate.
  - intros l [<-|[]]. split; discriminate.
  - intros p [].
Defined.

(** X8 on the reference collaborators: a tag added to a container without
    an id leaves "empty id" as the validator's answer. *)
Lemma Valid_after_added_tag_witness :
  Valid (mkUnsignedCorim Ref.swid_ref Ref.eat_ref Ref.tag_zero
           [Ref.hex "d901faa1a0"] None None)
  = Some (errors_New "empty id").
Proof.
  exact (proj2 (proj1 (Valid_after_added_tag NewUnsignedCorim
                         (mkUnsignedCorim Ref.swid_ref Ref.eat_ref Ref.tag_zero
                            [Ref.hex "d901faa1a0"] None None))
                  Ref.a_comid eq_refl)).
Defined.

(** X13 on the reference collaborators: a CoMID then a CoSWID. *)
Lemma additions_keep_call_order_witness :
  (o1 <- AddComid container Ref.a_comid ;;
   AddCoswid o1 Ref.rejected_coswid)%go Ref.untagged
  = Returns container
      (Ref.a_corim (Ref.tag_name "id")
         [Ref.hex "d901faa1a0"; Ref.hex "d901f9a26677"] None None).
Proof.
  exact (proj1 (additions_keep_call_order Ref.untagged)
           Ref.a_comid Ref.rejected_coswid (Ref.hex "a1a0") (Ref.hex "a26677")
           eq_refl eq_refl eq_refl).
Defined.

(** X14 on the reference collaborators: a Locator and a Profile, in both
    orders. *)
Lemma builders_on_different_fields_commute_witness :
  (o1 <- AddDependentRim container "https://example.org/rim" None ;;
   AddProfile o1 "2.16.840.1.101.3.4")%go Ref.corim
  = (o1 <- AddProfile container "2.16.840.1.101.3.4" ;;
     AddDependentRim o1 "https://example.org/rim" None)%go Ref.corim.
Proof.
  exact (proj1 (proj2 (builders_on_different_fields_commute Ref.corim))
           "https://example.org/rim" None "2.16.840.1.101.3.4"
           (Ref.profile_oid "2.16.840.1.101.3.4") eq_refl).
Defined.
